(** * nako: the sticker recommendation handler ([src/handlers/recommend.ts])

    A shallow embedding of [parseGetRequest], [parsePostRequest],
    [createSuccessResponse] and [handleRecommend], together with the part of
    the JavaScript run-time semantics these functions rely on (truthiness,
    [String.prototype.trim], [String.prototype.split], [parseInt], numeric
    coercion in relational comparison), and the properties of the handler
    that the specification states. *)

From Stdlib Require Import List ZArith NArith QArith Qabs Bool String Ascii Lia.
Import ListNotations.

Local Open Scope Z_scope.

#[local] Set Warnings "-register-all".

(** ** JavaScript strings

    A JavaScript string is a sequence of UTF-16 code units. *)
Module JsString.

Definition jsstring := list N.

(** A literal of the source text (ASCII only), as code units. *)
Definition lit (s : string) : jsstring :=
  List.map N_of_ascii (list_ascii_of_string s).

Definition eqb (a b : jsstring) : bool :=
  if list_eq_dec N.eq_dec a b then true else false.

(** WhiteSpace and LineTerminator code points of ECMA-262, the set that
    [trim], [parseInt] and the string-to-number conversion strip. *)
Definition is_white_space (c : N) : bool :=
  (existsb (N.eqb c)
     [9; 10; 11; 12; 13; 32; 160; 5760; 8232; 8233; 8239; 8287; 12288; 65279]
   || ((8192 <=? c) && (c <=? 8202)))%N.

Fixpoint trimStart (s : jsstring) : jsstring :=
  match s with
  | [] => []
  | c :: r => if is_white_space c then trimStart r else s
  end.

Definition trimEnd (s : jsstring) : jsstring := rev (trimStart (rev s)).

(** [s.trim()] *)
Definition trim (s : jsstring) : jsstring := trimEnd (trimStart s).

Definition comma : N := 44%N.

(** [s.split(",")]: the pieces between the commas; never an empty array. *)
Fixpoint split_comma (s : jsstring) : list jsstring :=
  match s with
  | [] => [[]]
  | c :: r =>
      if (c =? comma)%N then [] :: split_comma r
      else match split_comma r with
           | p :: ps => (c :: p) :: ps
           | [] => [[c]]
           end
  end.

(** [pieces.join(",")] *)
Fixpoint join_comma (pieces : list jsstring) : jsstring :=
  match pieces with
  | [] => []
  | [p] => p
  | p :: ps => p ++ comma :: join_comma ps
  end.

Definition is_digit (c : N) : bool := ((48 <=? c) && (c <=? 57))%N.

Definition digit_value (c : N) : Z := Z.of_N c - 48.

(** The longest prefix of decimal digits and what follows it. *)
Fixpoint span_digits (s : jsstring) : jsstring * jsstring :=
  match s with
  | c :: r =>
      if is_digit c then let (d, rest) := span_digits r in (c :: d, rest)
      else ([], s)
  | [] => ([], [])
  end.

Definition digits_value (d : jsstring) : Z :=
  fold_left (fun acc c => 10 * acc + digit_value c) d 0.

Definition plus_sign : N := 43%N.
Definition minus_sign : N := 45%N.

(** An optional sign: [(negative, rest)]. *)
Definition strip_sign (s : jsstring) : bool * jsstring :=
  match s with
  | c :: r =>
      if (c =? minus_sign)%N then (true, r)
      else if (c =? plus_sign)%N then (false, r)
      else (false, s)
  | [] => (false, [])
  end.

(** [parseInt(s, 10)]; [None] is NaN. Leading white space is skipped, a sign
    is read, then the longest run of decimal digits; what follows the digits
    is ignored. The mathematical integer is returned: the rounding of a long
    digit string to a double is monotone and leaves every integer up to
    2^53 unchanged, so it changes no comparison with 1 or 20. *)
Definition parseInt10 (s : jsstring) : option Z :=
  let (negative, body) := strip_sign (trimStart s) in
  let (d, _) := span_digits body in
  match d with
  | [] => None
  | _ => Some (if negative then - digits_value d else digits_value d)
  end.

End JsString.
Import JsString.

(** ** JavaScript numbers

    A Number is NaN, an infinity, or a finite double; a finite double is
    carried by its exact rational value (the handler only compares numbers,
    it does no arithmetic on them). A text is converted to the double
    nearest to the rational it denotes. *)
Module JsNumber.

Inductive number : Type :=
| NaN
| Infinity (negative : bool)
| Finite (q : Q).

Definition of_Z (z : Z) : number := Finite (inject_Z z).

Definition Qltb (x y : Q) : bool := negb (Qle_bool y x).

(** [a < b] on Numbers; any comparison with NaN is false. *)
Definition ltb (a b : number) : bool :=
  match a, b with
  | NaN, _ | _, NaN => false
  | Infinity na, Infinity nb => na && negb nb
  | Infinity na, Finite _ => na
  | Finite _, Infinity nb => negb nb
  | Finite x, Finite y => Qltb x y
  end.

(** [a > b] *)
Definition gtb (a b : number) : bool := ltb b a.

(** [a <= b]: [b < a] is false and neither is NaN. *)
Definition leb (a b : number) : bool :=
  match a, b with
  | NaN, _ | _, NaN => false
  | _, _ => negb (ltb b a)
  end.

Definition is_zero (n : number) : bool :=
  match n with
  | Finite q => Qeq_bool q 0
  | _ => false
  end.

Definition is_nan (n : number) : bool :=
  match n with
  | NaN => true
  | _ => false
  end.


(** The integer nearest to [a / b], the even one of two that are equally
    near. *)
Definition round_half_even (a : Z) (b : positive) : Z :=
  let floor := a / Z.pos b in
  match 2 * (a mod Z.pos b) ?= Z.pos b with
  | Lt => floor
  | Gt => floor + 1
  | Eq => if Z.even floor then floor else floor + 1
  end.

(** The integer [e] with [2^e <= n / d < 2^(e+1)]. *)
Definition binade (n d : positive) : Z :=
  let e := Z.log2 (Z.pos n) - Z.log2 (Z.pos d) in
  if Z.pos n * 2 ^ Z.max 0 (- e) <? Z.pos d * 2 ^ Z.max 0 e then e - 1 else e.

(** The double nearest to a rational, ties to the even significand
    (the rounding of IEEE 754 binary64 that ECMA-262 prescribes): in the
    binade [2^e, 2^(e+1)) the doubles are [2^(e-52)] apart, [e] being at
    least -1022 (below, the subnormal doubles are [2^-1074] apart); a
    result of [2^1024] or more is an infinity. *)
Definition to_double (q : Q) : number :=
  match Qnum q with
  | 0 => Finite 0
  | Z.pos n | Z.neg n =>
      let negative := Qnum q <? 0 in
      let spacing := Z.max (binade n (Qden q)) (-1022) - 52 in
      let significand :=
        round_half_even (Z.pos n * 2 ^ Z.max 0 (- spacing))
          (Z.to_pos (Z.pos (Qden q) * 2 ^ Z.max 0 spacing)) in
      let magnitude := significand * 2 ^ Z.max 0 spacing in
      if 2 ^ 1024 <=? magnitude then Infinity negative
      else Finite (Qred ((if negative then - magnitude else magnitude)
                           # Z.to_pos (2 ^ Z.max 0 (- spacing))))
  end.

Definition hex_digit_value (c : N) : option Z :=
  if is_digit c then Some (digit_value c)
  else if ((97 <=? c) && (c <=? 102))%N then Some (Z.of_N c - 87)
  else if ((65 <=? c) && (c <=? 70))%N then Some (Z.of_N c - 55)
  else None.

(** The value of a non-empty string of digits of the radix; [None] when a
    character is not such a digit. *)
Fixpoint radix_value (radix : Z) (acc : Z) (s : jsstring) : option Z :=
  match s with
  | [] => Some acc
  | c :: r =>
      match hex_digit_value c with
      | Some d => if d <? radix then radix_value radix (radix * acc + d) r else None
      | None => None
      end
  end.

(** [0x..], [0o..], [0b..] (either case), unsigned. *)
Definition non_decimal_literal (s : jsstring) : option Z :=
  match s with
  | 48%N :: p :: ((_ :: _) as d) =>
      if ((p =? 120) || (p =? 88))%N then radix_value 16 0 d
      else if ((p =? 111) || (p =? 79))%N then radix_value 8 0 d
      else if ((p =? 98) || (p =? 66))%N then radix_value 2 0 d
      else None
  | _ => None
  end.

(** The exponent part that ends a decimal literal: nothing, or [e] or [E],
    an optional sign and at least one digit. *)
Definition exponent_part (s : jsstring) : option Z :=
  match s with
  | [] => Some 0
  | c :: r =>
      if ((c =? 101) || (c =? 69))%N then
        let (negative, ds) := strip_sign r in
        match span_digits ds with
        | ((_ :: _) as d, []) => Some (if negative then - digits_value d else digits_value d)
        | _ => None
        end
      else None
  end.

Definition dot : N := 46%N.

(** [digits], [digits.], [digits.digits], [.digits], each with an optional
    exponent part. *)
Definition unsigned_decimal (s : jsstring) : option Q :=
  let (ip, r1) := span_digits s in
  let (fp, r2) :=
    match r1 with
    | c :: r => if (c =? dot)%N then span_digits r else ([], r1)
    | [] => ([], [])
    end in
  match ip ++ fp with
  | [] => None
  | m =>
      match exponent_part r2 with
      | Some e =>
          Some (inject_Z (digits_value m) * Qpower 10 (e - Z.of_nat (List.length fp))%Z)%Q
      | None => None
      end
  end.

(** StringToNumber of ECMA-262 (the conversion [Number(s)] applies): the
    literal denotes a rational, and the Number is the double nearest to
    it. *)
Definition StringToNumber (s : jsstring) : number :=
  match trim s with
  | [] => Finite 0
  | t =>
      match non_decimal_literal t with
      | Some z => to_double (inject_Z z)
      | None =>
          let (negative, u) := strip_sign t in
          if eqb u (lit "Infinity") then Infinity negative
          else match unsigned_decimal u with
               | Some q => to_double (if negative then - q else q)
               | None => NaN
               end
      end
  end.

End JsNumber.
Import JsNumber.

(** ** JavaScript values and completions *)
Module JsValue.

(** The values [JSON.parse] produces, and [undefined]. An object is the list
    of its own properties. *)
Inductive value : Type :=
| JUndefined
| JNull
| JBool (b : bool)
| JNumber (n : number)
| JString (s : jsstring)
| JArray (elements : list value)
| JObject (properties : list (jsstring * value)).

Inductive exn : Type :=
| TypeError
| Rejected.

(** How an evaluation ends: with a value, or with an exception thrown (a
    promise rejected). *)
Inductive completion (A : Type) : Type :=
| Return (a : A)
| Throw (e : exn).

Arguments Return {A} a.
Arguments Throw {A} e.

Definition bind {A B : Type} (c : completion A) (k : A -> completion B) : completion B :=
  match c with
  | Return a => k a
  | Throw e => Throw e
  end.

Declare Scope completion_scope.
Delimit Scope completion_scope with completion.
Notation "x <- c ;; k" := (bind c (fun x => k))
  (at level 61, c at next level, right associativity) : completion_scope.

(** [!!v] *)
Definition ToBoolean (v : value) : bool :=
  match v with
  | JUndefined | JNull => false
  | JBool b => b
  | JNumber n => negb (is_nan n || is_zero n)
  | JString s => match s with [] => false | _ => true end
  | JArray _ | JObject _ => true
  end.

(** [typeof v === 'string'] *)
Definition is_string (v : value) : bool :=
  match v with
  | JString _ => true
  | _ => false
  end.

Definition has_own_property (properties : list (jsstring * value)) (key : jsstring) : bool :=
  existsb (fun kv => eqb (fst kv) key) properties.

Fixpoint lookup (properties : list (jsstring * value)) (key : jsstring) : value :=
  match properties with
  | [] => JUndefined
  | (k, v) :: rest => if eqb k key then v else lookup rest key
  end.

(** [v.key], for a key that no prototype defines ([prompt], [topK],
    [excludeRecent]): the own property of an object, [undefined] on any
    other value, and a TypeError on [null] and [undefined]. *)
Definition get (v : value) (key : jsstring) : completion value :=
  match v with
  | JUndefined | JNull => Throw TypeError
  | JObject properties => Return (lookup properties key)
  | _ => Return JUndefined
  end.

(** ToNumber, as the relational operators apply it to an operand compared
    with a Number.
    - An object of [JSON.parse] converts through [Object.prototype.toString]
      to a text that is no numeric literal, hence NaN; when it has an own
      property [toString] (never callable, coming from JSON), no conversion
      is left and a TypeError is thrown.
    - An array converts through [join(",")]: the empty array gives the empty
      text, hence 0; one element gives the text of that element ([null]
      gives the empty text, a boolean [true] or [false], a Number its
      shortest decimal form, which reads back as the same Number); two or
      more elements give a text with a comma, hence NaN. Converting an
      element to text throws where converting it to a Number does. *)
Fixpoint ToNumber (v : value) : completion number :=
  match v with
  | JUndefined => Return NaN
  | JNull => Return (Finite 0)
  | JBool b => Return (Finite (if b then 1 else 0))
  | JNumber n => Return n
  | JString s => Return (StringToNumber s)
  | JArray elements =>
      let fix all_convert (l : list value) : bool :=
        match l with
        | [] => true
        | x :: r => match ToNumber x with
                    | Throw _ => false
                    | Return _ => all_convert r
                    end
        end in
      match elements with
      | [] => Return (Finite 0)
      | [x] =>
          match x with
          | JUndefined | JNull => Return (Finite 0)
          | JBool _ => Return NaN
          | _ => ToNumber x
          end
      | _ => if all_convert elements then Return NaN else Throw TypeError
      end
  | JObject properties =>
      if has_own_property properties (lit "toString") then Throw TypeError
      else Return NaN
  end.

(** [v > k] and [v <= k] for a Number [k]. *)
Definition gt (v : value) (k : number) : completion bool :=
  bind (ToNumber v) (fun n => Return (gtb n k)).

Definition le (v : value) (k : number) : completion bool :=
  bind (ToNumber v) (fun n => Return (leb n k)).

(** The text of a value that is a string. *)
Definition string_value (v : value) : jsstring :=
  match v with
  | JString s => s
  | _ => []
  end.

End JsValue.
Import JsValue.

(** ** The handler *)
Module Recommend.

(** [interface StickerResult] *)
Record StickerResult : Type := {
  assetbundleName : jsstring;
  name : jsstring;
  score : number
}.

(** [interface ParsedParams]. The fields hold run-time values: the
    TypeScript types of [topK] and [excludeRecent] are not checked when the
    body of a POST request is read ([as RecommendRequest] is a cast), and
    [excludeRecent] is [undefined] when it is left out. *)
Record ParsedParams : Type := {
  prompt : jsstring;
  topK : value;
  excludeRecent : value
}.

(** [interface RecommendResponse] *)
Record RecommendResponse : Type := {
  success : bool;
  stickers : list StickerResult;
  query : jsstring
}.

(** A [Response]: the one [createSuccessResponse] builds, with its status,
    headers and body before serialisation, or the one [createErrorResponse]
    builds. *)
Inductive Response : Type :=
| JsonResponse (status : Z) (headers : list (string * string)) (body : RecommendResponse)
| ErrorResponse (code message : string) (status : Z).

(** Modelled from the spec: [createErrorResponse] of [src/utils/response.ts],
    which is not among the sources. The response carries the error envelope
    [{success: false, error: {code, message}}] and the status passed as third
    argument; without a third argument (the validation and JSON errors) the
    status is 400. *)
Definition createErrorResponse (code message : string) (status : option Z) : Response :=
  ErrorResponse code message (match status with Some s => s | None => 400 end).

(** A [Request], as far as the handler reads it: the method, the query
    parameters of [new URL(request.url).searchParams] in order, and what
    [request.json()] resolves to ([None] when it rejects: the body is not
    JSON). *)
Record Request : Type := {
  method : jsstring;
  searchParams : list (jsstring * jsstring);
  json : option value
}.

(** [url.searchParams.get(name)]: the first value of that name, or [null]. *)
Fixpoint searchParams_get (params : list (jsstring * jsstring)) (name : jsstring)
  : option jsstring :=
  match params with
  | [] => None
  | (k, v) :: rest => if eqb k name then Some v else searchParams_get rest name
  end.

Definition parseGetRequest (request : Request) : ParsedParams + Response :=
  let promptParam := searchParams_get (searchParams request) (lit "prompt") in
  match promptParam with
  | Some ((_ :: _) as promptParam) =>
      match trim promptParam with
      | [] =>
          inr (createErrorResponse "INVALID_REQUEST" "prompt query parameter is required" None)
      | prompt =>
          let topKParam := searchParams_get (searchParams request) (lit "topK") in
          let topK :=
            match topKParam with
            | Some ((_ :: _) as topKParam) => parseInt10 topKParam
            | _ => Some 5
            end in
          let topK :=
            match topK with
            | None => 5
            | Some k => if (k <? 1) || (k >? 20) then 5 else k
            end in
          let excludeParam := searchParams_get (searchParams request) (lit "excludeRecent") in
          let excludeRecent :=
            match excludeParam with
            | Some ((_ :: _) as excludeParam) =>
                JArray (List.map JString
                          (filter (fun s => (0 <? Z.of_nat (List.length s)))
                                  (List.map trim (split_comma excludeParam))))
            | _ => JUndefined
            end in
          inl {| prompt := prompt;
                 topK := JNumber (of_Z topK);
                 excludeRecent := excludeRecent |}
      end
  | _ => inr (createErrorResponse "INVALID_REQUEST" "prompt query parameter is required" None)
  end.

(** What [parsePostRequest] does once [request.json()] has resolved to
    [body]; reading a property of [body] throws when [body] is [null]. *)
Definition parsePostBody (body : value) : completion (ParsedParams + Response) :=
  (body_prompt <- get body (lit "prompt") ;;
   if negb (ToBoolean body_prompt)
      || negb (is_string body_prompt)
      || (Z.of_nat (List.length (trim (string_value body_prompt))) =? 0)
   then
     Return (inr (createErrorResponse "INVALID_REQUEST"
                    "prompt is required and must be a non-empty string" None))
   else
     let prompt := trim (string_value body_prompt) in
     body_topK <- get body (lit "topK") ;;
     topK <- (if ToBoolean body_topK then
                positive <- gt body_topK (Finite 0) ;;
                if positive then
                  bounded <- le body_topK (Finite 20) ;;
                  Return (if bounded then body_topK else JNumber (Finite 5))
                else Return (JNumber (Finite 5))
              else Return (JNumber (Finite 5))) ;;
     excludeRecent <- get body (lit "excludeRecent") ;;
     Return (inl {| prompt := prompt; topK := topK; excludeRecent := excludeRecent |})
  )%completion.

Definition createSuccessResponse (results : list StickerResult) (query : jsstring) : Response :=
  let response := {| success := true; stickers := results; query := query |} in
  JsonResponse 200
    [ ("Content-Type", "application/json");
      ("Access-Control-Allow-Origin", "*");
      ("Access-Control-Allow-Methods", "GET, POST, OPTIONS");
      ("Access-Control-Allow-Headers", "Content-Type") ]%string
    response.

Section Handler.

(** The outside of the handler: the world the embedder and the vector store
    live in, the two bindings of the environment, and what
    [extractRecentStickers] returns. *)
Variables World AiBinding VectorizeBinding Ids : Type.

(** [extractRecentStickers(messages, maxCount)] of [src/services/sticker.ts]
    (not among the sources): a synchronous function on the elements of the
    array it is given, which may throw. *)
Variable extractRecentStickers : list value -> Z -> completion Ids.

(** [searchStickersWithScores(ai, vectorize, prompt, topK, excludeIds)] of
    [src/services/sticker.ts]: it calls the embedder and the vector store,
    so its result depends on the world and it may change the world; the
    promise it returns resolves to the results or rejects. *)
Variable searchStickersWithScores :
  AiBinding -> VectorizeBinding -> jsstring -> value -> option Ids ->
  World -> completion (list StickerResult) * World.

(** [interface Env] *)
Record Env : Type := {
  AI : AiBinding;
  VECTORIZE : option VectorizeBinding
}.

(** What the handler does besides computing its response, in order. *)
Inductive Event : Type :=
| ReadJson
| Extract (messages : list value) (maxCount : Z)
| Search (ai : AiBinding) (vectorize : VectorizeBinding) (prompt : jsstring)
         (topK : value) (excludeIds : option Ids)
| ConsoleError (e : exn).

Record State : Type := {
  world : World;
  trace : list Event
}.

(** A computation of the handler: it reads and changes the state and ends
    with a value or a thrown exception. *)
Definition M (A : Type) : Type := State -> completion A * State.

Definition ret {A : Type} (a : A) : M A := fun st => (Return a, st).

Definition mbind {A B : Type} (c : M A) (k : A -> M B) : M B :=
  fun st =>
    match c st with
    | (Return a, st') => k a st'
    | (Throw e, st') => (Throw e, st')
    end.

Definition emit (e : Event) : M unit :=
  fun st => (Return tt, {| world := world st; trace := trace st ++ [e] |}).

Definition lift {A : Type} (c : completion A) : M A := fun st => (c, st).

(** [try { body } catch (error) { handler(error) }] *)
Definition try_catch {A : Type} (body : M A) (handler : exn -> M A) : M A :=
  fun st =>
    match body st with
    | (Return a, st') => (Return a, st')
    | (Throw e, st') => handler e st'
    end.

Notation "x <- c ;; k" := (mbind c (fun x => k))
  (at level 61, c at next level, right associativity).
Notation "c ;;; k" := (mbind c (fun _ => k))
  (at level 61, right associativity).

Definition call_extractRecentStickers (messages : list value) (maxCount : Z) : M Ids :=
  emit (Extract messages maxCount) ;;;
  lift (extractRecentStickers messages maxCount).

Definition call_searchStickersWithScores (ai : AiBinding) (vectorize : VectorizeBinding)
    (prompt : jsstring) (topK : value) (excludeIds : option Ids) : M (list StickerResult) :=
  emit (Search ai vectorize prompt topK excludeIds) ;;;
  fun st =>
    let (results, w) := searchStickersWithScores ai vectorize prompt topK excludeIds (world st) in
    (results, {| world := w; trace := trace st |}).

Definition parsePostRequest (request : Request) : M (ParsedParams + Response) :=
  emit ReadJson ;;;
  match json request with
  | None => ret (inr (createErrorResponse "INVALID_JSON" "Invalid JSON in request body" None))
  | Some body => lift (parsePostBody body)
  end.

(** [handleRecommend] from the test [params instanceof Response] on. *)
Definition recommend (env : Env) (vectorize : VectorizeBinding)
    (params : ParsedParams + Response) : M Response :=
  match params with
  | inr response => ret response
  | inl params =>
      excludeIds <- match excludeRecent params with
                    | JArray messages =>
                        ids <- call_extractRecentStickers messages 10 ;; ret (Some ids)
                    | _ => ret None
                    end ;;
      results <- call_searchStickersWithScores (AI env) vectorize
                   (prompt params) (topK params) excludeIds ;;
      ret (createSuccessResponse results (prompt params))
  end.

Definition handleRecommend (request : Request) (env : Env) : M Response :=
  try_catch
    (match VECTORIZE env with
     | None =>
         ret (createErrorResponse "VECTORIZE_UNAVAILABLE"
                "Sticker recommendation service is not available" (Some 503))
     | Some vectorize =>
         if eqb (method request) (lit "GET") then
           recommend env vectorize (parseGetRequest request)
         else if eqb (method request) (lit "POST") then
           params <- parsePostRequest request ;;
           recommend env vectorize params
         else
           ret (createErrorResponse "METHOD_NOT_ALLOWED"
                  "Only GET and POST methods are supported" (Some 405))
     end)
    (fun error =>
       emit (ConsoleError error) ;;;
       ret (createErrorResponse "INTERNAL_ERROR" "An internal error occurred" (Some 500))).

End Handler.

Arguments Build_Env {AiBinding VectorizeBinding} AI VECTORIZE.
Arguments AI {AiBinding VectorizeBinding} e.
Arguments VECTORIZE {AiBinding VectorizeBinding} e.
Arguments ReadJson {AiBinding VectorizeBinding Ids}.
Arguments Extract {AiBinding VectorizeBinding Ids} messages maxCount.
Arguments Search {AiBinding VectorizeBinding Ids} ai vectorize prompt topK excludeIds.
Arguments ConsoleError {AiBinding VectorizeBinding Ids} e.
Arguments Build_State {World AiBinding VectorizeBinding Ids} world trace.
Arguments world {World AiBinding VectorizeBinding Ids} s.
Arguments trace {World AiBinding VectorizeBinding Ids} s.
Arguments ret {World AiBinding VectorizeBinding Ids A} a st.
Arguments mbind {World AiBinding VectorizeBinding Ids A B} c k st.
Arguments emit {World AiBinding VectorizeBinding Ids} e st.
Arguments lift {World AiBinding VectorizeBinding Ids A} c st.
Arguments try_catch {World AiBinding VectorizeBinding Ids A} body handler st.
Arguments call_extractRecentStickers {World AiBinding VectorizeBinding Ids}.
Arguments call_searchStickersWithScores {World AiBinding VectorizeBinding Ids}.
Arguments parsePostRequest {World AiBinding VectorizeBinding Ids}.
Arguments recommend {World AiBinding VectorizeBinding Ids}.
Arguments handleRecommend {World AiBinding VectorizeBinding Ids}.

(** ** The Similarity Searcher, from the specification *)
Section Searcher.

Variables World AiBinding VectorizeBinding Vector : Type.

(** The embedder capability, [embed(text) -> vector], which may fail. *)
Variable embed : AiBinding -> jsstring -> World -> completion Vector * World.

(** A candidate of the vector store: [{id, metadata: {name}, score}]. *)
Record Candidate : Type := {
  id : jsstring;
  metadata_name : jsstring;
  candidate_score : number
}.

(** The vector-store capability, [query(vector, limit)], which may fail. *)
Variable store_query :
  VectorizeBinding -> Vector -> nat -> World -> completion (list Candidate) * World.

(** The largest number of candidates the store answers with. *)
Variable store_max : nat.

(** The count the searcher reads from its [topK] argument. *)
Variable count_of : value -> nat.

Definition excluded (excludeIds : option (list jsstring)) (c : Candidate) : bool :=
  match excludeIds with
  | Some ids => existsb (eqb (id c)) ids
  | None => false
  end.

Definition to_result (c : Candidate) : StickerResult :=
  {| assetbundleName := id c; name := metadata_name c; score := candidate_score c |}.

(** Modelled from the spec: [searchStickersWithScores] of
    [src/services/sticker.ts], which is not among the sources. The five steps
    of the contract of the Similarity Searcher: embed the prompt; query the
    store for [topK] candidates and as many more as there are excluded
    identifiers, within the store's maximum; drop the excluded candidates;
    keep the first [topK] in the store's order; map each to
    [{assetbundleName, name, score}]. A failure of either capability is the
    failure of the search. *)
Definition searchStickersWithScores_spec (ai : AiBinding) (vectorize : VectorizeBinding)
    (prompt : jsstring) (topK : value) (excludeIds : option (list jsstring))
    (w : World) : completion (list StickerResult) * World :=
  match embed ai prompt w with
  | (Throw e, w1) => (Throw e, w1)
  | (Return vector, w1) =>
      let k := count_of topK in
      let extra := match excludeIds with Some ids => List.length ids | None => O end in
      match store_query vectorize vector (Nat.min (k + extra) store_max) w1 with
      | (Throw e, w2) => (Throw e, w2)
      | (Return candidates, w2) =>
          let remaining := filter (fun c => negb (excluded excludeIds c)) candidates in
          (Return (List.map to_result (firstn k remaining)), w2)
      end
  end.

End Searcher.

Arguments excluded excludeIds c : clear implicits.
Arguments searchStickersWithScores_spec {World AiBinding VectorizeBinding Vector}.

(** ** Reading a response *)

(** The [error.code] of an error response. *)
Definition error_code (r : Response) : option string :=
  match r with
  | ErrorResponse code _ _ => Some code
  | JsonResponse _ _ _ => None
  end.


(** The [stickers] of a success response. *)
Definition response_stickers (r : Response) : list StickerResult :=
  match r with
  | JsonResponse _ _ body => stickers body
  | ErrorResponse _ _ _ => []
  end.

Definition response_headers (r : Response) : list (string * string) :=
  match r with
  | JsonResponse _ headers _ => headers
  | ErrorResponse _ _ _ => []
  end.

(** The events that are calls of the searcher, the only place where the
    embedder and the vector store are used. *)
Definition is_search {AiBinding VectorizeBinding Ids : Type}
    (e : Event AiBinding VectorizeBinding Ids) : bool :=
  match e with
  | Search _ _ _ _ _ => true
  | _ => false
  end.

(** A request that one of the two parsers turns into parameters. *)
Definition parsed (request : Request) (params : ParsedParams) : Prop :=
  (method request = lit "GET" /\ parseGetRequest request = inl params)
  \/ (method request = lit "POST"
      /\ exists body, json request = Some body /\ parsePostBody body = Return (inl params)).

Section RunSpecification.

Variables World AiBinding VectorizeBinding Ids : Type.
Variable extractRecentStickers : list value -> Z -> completion Ids.

(** The exclusion set the handler derives from the parameters: what
    [extractRecentStickers] returns on an [excludeRecent] that is an array,
    and none otherwise. *)
Definition derived_exclusion (params : ParsedParams) (excludeIds : option Ids) : Prop :=
  match excludeRecent params with
  | JArray messages =>
      exists ids, extractRecentStickers messages 10 = Return ids /\ excludeIds = Some ids
  | _ => excludeIds = None
  end.

(** A specification of runs: the events a computation adds to the trace
    all satisfy [P], and a value it returns satisfies [Q]. *)
Definition run_spec {A : Type} (P : Event AiBinding VectorizeBinding Ids -> Prop)
    (Q : A -> Prop) (c : M World AiBinding VectorizeBinding Ids A) : Prop :=
  forall st, exists events,
    trace (snd (c st)) = trace st ++ events
    /\ Forall P events
    /\ forall a, fst (c st) = Return a -> Q a.

(** What holds of an event of a run on [request] in [env]: a [Search]
    event carries the bindings of the environment, the prompt and the
    [topK] of the parsed parameters, and the exclusion set derived from
    them. *)
Definition search_as_parsed (request : Request) (env : Env AiBinding VectorizeBinding)
    (ev : Event AiBinding VectorizeBinding Ids) : Prop :=
  is_search ev = true ->
  exists vectorize params excludeIds,
    VECTORIZE env = Some vectorize
    /\ parsed request params
    /\ ev = Search (AI env) vectorize (prompt params) (topK params) excludeIds
    /\ derived_exclusion params excludeIds.

(** [searchStickersWithScores], as in the handler. *)
Variable searchStickersWithScores :
  AiBinding -> VectorizeBinding -> jsstring -> value -> option Ids ->
  World -> completion (list StickerResult) * World.

(** What holds of the response of a run on [request] in [env]: a success
    response carries the results of a search with the prompt and the [topK]
    of the parsed parameters and the exclusion set derived from them, and
    echoes the parsed prompt. *)
Definition response_as_searched (request : Request) (env : Env AiBinding VectorizeBinding)
    (r : Response) : Prop :=
  match r with
  | ErrorResponse _ _ _ => True
  | JsonResponse _ _ body =>
      exists vectorize params excludeIds w,
        VECTORIZE env = Some vectorize
        /\ parsed request params
        /\ derived_exclusion params excludeIds
        /\ fst (searchStickersWithScores (AI env) vectorize (prompt params) (topK params)
                  excludeIds w) = Return (stickers body)
        /\ query body = prompt params
  end.

(** The outcome of parsing: parameters parsed from the request, or an error
    response. *)
Definition parse_outcome (request : Request) (params : ParsedParams + Response) : Prop :=
  match params with
  | inl p => parsed request p
  | inr r => error_code r <> None
  end.

(** A computation whose outcome does not depend on the state it starts
    from. *)
Definition state_independent {A : Type} (c : M World AiBinding VectorizeBinding Ids A) : Prop :=
  forall st st', fst (c st) = fst (c st').

(** The events a run from [st] adds to the trace. *)
Definition new_events {A : Type} (c : M World AiBinding VectorizeBinding Ids A)
    (st : State World AiBinding VectorizeBinding Ids)
  : list (Event AiBinding VectorizeBinding Ids) :=
  skipn (List.length (trace st)) (trace (snd (c st))).

End RunSpecification.

Arguments new_events {World AiBinding VectorizeBinding Ids A} c st.
Arguments state_independent World {AiBinding VectorizeBinding Ids A} c.
Arguments response_as_searched {World AiBinding VectorizeBinding Ids}
  extractRecentStickers searchStickersWithScores request env r.

Arguments derived_exclusion {Ids} extractRecentStickers params excludeIds.
Arguments run_spec World {AiBinding VectorizeBinding Ids A} P Q c.
Arguments search_as_parsed {AiBinding VectorizeBinding Ids} extractRecentStickers request env ev.

(** ** The conditions of the specification, in its words *)

(** A [topK] query parameter the read form does not use: absent, empty, not
    starting with an integer for [parseInt], or with an integer outside
    [1, 20]. *)
Definition get_topK_unusable (topKParam : option jsstring) : Prop :=
  match topKParam with
  | None => True
  | Some s =>
      s = [] \/ parseInt10 s = None
      \/ exists k, parseInt10 s = Some k /\ (k < 1 \/ 20 < k)
  end.

(** A [topK] of a JSON body the write form does not use: falsy, or
    converting to a Number that is NaN, not above 0, or above 20. *)
Definition post_topK_unusable (body_topK : value) : Prop :=
  ToBoolean body_topK = false
  \/ exists n, ToNumber body_topK = Return n /\ (gtb n (Finite 0) = false \/ leb n (Finite 20) = false).

(** A [topK] of a JSON body as the write form passes it on: truthy, and
    converting to a Number in (0, 20]. *)
Definition post_topK_usable (body_topK : value) : Prop :=
  ToBoolean body_topK = true
  /\ exists n, ToNumber body_topK = Return n /\ gtb n (Finite 0) = true /\ leb n (Finite 20) = true.

(** A prompt of a JSON body that is missing, not a string, or empty after
    trimming. *)
Definition prompt_missing_or_blank (body_prompt : value) : Prop :=
  match body_prompt with
  | JString s => trim s = []
  | _ => True
  end.

(** A [prompt] query parameter that is missing or empty after trimming. *)
Definition prompt_param_missing_or_blank (promptParam : option jsstring) : Prop :=
  match promptParam with
  | Some s => trim s = []
  | None => True
  end.

(** [Array.isArray(v)] *)
Definition is_array (v : value) : bool :=
  match v with
  | JArray _ => true
  | _ => false
  end.


(** [pieces] are the comma-separated elements of [s]: joined by commas they
    give [s] back, and none of them holds a comma. *)
Definition comma_separated (s : jsstring) (pieces : list jsstring) : Prop :=
  pieces <> [] /\ join_comma pieces = s /\ Forall (fun p => ~ In comma p) pieces.

(** The elements of the specification's [excludeRecent] list: each piece
    trimmed, the empty ones dropped. *)
Definition trimmed_non_empty (pieces : list jsstring) : list jsstring :=
  filter (fun s => negb (eqb s [])) (List.map trim pieces).

(** A supplied [topK] that is not a Number, or is a Number outside
    [1, 20]. *)
Definition topK_non_numeric_or_outside_1_20 (supplied : value) : bool :=
  match supplied with
  | JNumber n => negb (leb (Finite 1) n && leb n (Finite 20))
  | _ => true
  end.


(** ** A small catalogue to run the handler on *)
Module Fixture.

Definition catalog : list Candidate :=
  [ {| id := lit "stickerA"; metadata_name := lit "happy"; candidate_score := Finite (9 # 10) |};
    {| id := lit "stickerB"; metadata_name := lit "cake"; candidate_score := Finite (8 # 10) |};
    {| id := lit "stickerC"; metadata_name := lit "sleepy"; candidate_score := Finite (7 # 10) |} ].

(** The world counts the calls made to the two capabilities. *)
Definition World : Type := nat.

Definition embed (_ : unit) (text : jsstring) (w : World) : completion jsstring * World :=
  (Return text, S w).

Definition store_query (_ : unit) (_ : jsstring) (limit : nat) (w : World)
  : completion (list Candidate) * World :=
  (Return (firstn limit catalog), S w).

Definition count_of (v : value) : nat :=
  match v with
  | JNumber (Finite q) => Z.to_nat (Qnum q / Z.pos (Qden q))
  | _ => O
  end.

Definition search : unit -> unit -> jsstring -> value -> option (list jsstring) ->
                    World -> completion (list StickerResult) * World :=
  searchStickersWithScores_spec embed store_query 50%nat count_of.

(** Every message that is a string counts as an identifier. *)
Definition extract (messages : list value) (maxCount : Z) : completion (list jsstring) :=
  Return (firstn (Z.to_nat maxCount)
            (List.map string_value (filter is_string messages))).

Definition env : Env unit unit := {| AI := tt; VECTORIZE := Some tt |}.

Definition env_unavailable : Env unit unit := {| AI := tt; VECTORIZE := None |}.

Definition start : State World unit unit (list jsstring) := {| world := O; trace := [] |}.

Definition get_request (params : list (string * string)) : Request :=
  {| method := lit "GET";
     searchParams := List.map (fun kv => (lit (fst kv), lit (snd kv))) params;
     json := None |}.

Definition post_request (body : value) : Request :=
  {| method := lit "POST"; searchParams := []; json := Some body |}.

Definition other_request (m : string) : Request :=
  {| method := lit m; searchParams := []; json := None |}.

Definition handle (request : Request) (e : Env unit unit) :=
  handleRecommend extract search request e start.

End Fixture.

End Recommend.
Import Recommend.

From Stdlib Require Import DecimalString.

(** ** Validation of a chat request ([src/utils/validation.ts]) *)
Module Validation.

(** [interface ValidationResult]: [{ valid: true }] or
    [{ valid: false, error }]. *)
Record ValidationResult : Type := {
  valid : bool;
  error : option string
}.

Definition invalid (message : string) : ValidationResult :=
  {| valid := false; error := Some message |}.

(** [validateChatRequest(body)]; reading a property of [body] throws when
    [body] is [null] or [undefined]. *)
Definition validateChatRequest (body : value) : completion ValidationResult :=
  (body_userId <- get body (lit "userId") ;;
   if negb (ToBoolean body_userId) || negb (is_string body_userId) then
     Return (invalid "Missing or invalid userId")
   else
     body_message <- get body (lit "message") ;;
     if negb (ToBoolean body_message) || negb (is_string body_message) then
       Return (invalid "Missing or invalid message")
     else if Z.of_nat (List.length (string_value body_message)) >? 2000 then
       Return (invalid "Message too long (max 2000 characters)")
     else
       body_history <- get body (lit "history") ;;
       if ToBoolean body_history && negb (is_array body_history) then
         Return (invalid "History must be an array")
       else
         Return {| valid := true; error := None |}
  )%completion.

(** A value that is a string and not the empty one. *)
Definition non_empty_string (v : value) : bool :=
  match v with
  | JString (_ :: _) => true
  | _ => false
  end.

(** A [history] the validation lets through: falsy, or an array. *)
Definition history_ok (v : value) : bool :=
  negb (ToBoolean v) || is_array v.

(** A body the validation accepts, field by field. *)
Definition chat_request_ok (body : value) : Prop :=
  exists userId message history,
    get body (lit "userId") = Return userId
    /\ get body (lit "message") = Return message
    /\ get body (lit "history") = Return history
    /\ non_empty_string userId = true
    /\ non_empty_string message = true
    /\ (List.length (string_value message) <= 2000)%nat
    /\ history_ok history = true.

End Validation.
Import Validation.

(** ** Shapes of strings and traces *)
Module Shapes.

(** A string that neither starts nor ends with white space. *)
Definition no_outer_white_space (s : jsstring) : Prop :=
  match s with
  | c :: _ => is_white_space c = false
  | [] => True
  end
  /\ match rev s with
     | c :: _ => is_white_space c = false
     | [] => True
     end.

(** [t] is [s] without a run of white space at each end. *)
Definition stripped_of (s t : jsstring) : Prop :=
  exists before after,
    s = before ++ t ++ after
    /\ forallb is_white_space before = true
    /\ forallb is_white_space after = true.

(** The decimal digits of an integer, as [String(k)] writes them. *)
Definition decimal (k : Z) : jsstring :=
  lit (NilZero.string_of_int (Z.to_int k)).

Definition is_console_error {AiBinding VectorizeBinding Ids : Type}
    (e : Event AiBinding VectorizeBinding Ids) : bool :=
  match e with
  | ConsoleError _ => true
  | _ => false
  end.

Definition is_extract {AiBinding VectorizeBinding Ids : Type}
    (e : Event AiBinding VectorizeBinding Ids) : bool :=
  match e with
  | Extract _ _ => true
  | _ => false
  end.

Definition is_read_json {AiBinding VectorizeBinding Ids : Type}
    (e : Event AiBinding VectorizeBinding Ids) : bool :=
  match e with
  | ReadJson => true
  | _ => false
  end.

End Shapes.
Import Shapes.

(** ** Responses and traces of the handler *)
Module Outcomes.

(** The responses the handler builds: the success response, and the error
    responses with the codes, messages and statuses of the source. *)
Definition handler_response (r : Response) : Prop :=
  (exists results query, r = createSuccessResponse results query)
  \/ r = createErrorResponse "VECTORIZE_UNAVAILABLE"
           "Sticker recommendation service is not available" (Some 503)
  \/ r = createErrorResponse "METHOD_NOT_ALLOWED"
           "Only GET and POST methods are supported" (Some 405)
  \/ r = createErrorResponse "INVALID_REQUEST" "prompt query parameter is required" None
  \/ r = createErrorResponse "INVALID_REQUEST"
           "prompt is required and must be a non-empty string" None
  \/ r = createErrorResponse "INVALID_JSON" "Invalid JSON in request body" None
  \/ r = createErrorResponse "INTERNAL_ERROR" "An internal error occurred" (Some 500).

(** [l] without its first event when that event satisfies [p]. *)
Definition skip_one {E : Type} (p : E -> bool) (l : list E) : list E :=
  match l with
  | e :: rest => if p e then rest else l
  | [] => []
  end.

(** A trace that is, in this order and each at most once: the reading of
    the body, an extraction, a search, a logged error. *)
Definition in_order {AiBinding VectorizeBinding Ids : Type}
    (l : list (Event AiBinding VectorizeBinding Ids)) : bool :=
  match skip_one is_console_error
          (skip_one is_search (skip_one is_extract (skip_one is_read_json l))) with
  | [] => true
  | _ => false
  end.

(** The [maxCount] of an extraction is 10 (other events pass). *)
Definition extracts_ten {AiBinding VectorizeBinding Ids : Type}
    (e : Event AiBinding VectorizeBinding Ids) : bool :=
  match e with
  | Extract _ maxCount => maxCount =? 10
  | _ => true
  end.

(** An extractor that throws on a message that is not a string, as a
    method call on such a message does. *)
Definition strict_extract (messages : list value) (maxCount : Z)
  : completion (list jsstring) :=
  if forallb is_string messages then Fixture.extract messages maxCount
  else Throw TypeError.

End Outcomes.
Import Outcomes.


(** * The model on concrete inputs *)

Example parseInt_skips_space_and_stops_at_text :
  parseInt10 (lit "  12px") = Some 12 /\ parseInt10 (lit "7.9") = Some 7
  /\ parseInt10 (lit "-3") = Some (-3) /\ parseInt10 (lit "abc") = None.
Proof. repeat split. Qed.

Example StringToNumber_literals :
  StringToNumber (lit " 3 ") = Finite 3
  /\ StringToNumber (lit "0x14") = Finite 20
  /\ StringToNumber [] = Finite 0
  /\ StringToNumber (lit "3abc") = NaN
  /\ StringToNumber (lit "-Infinity") = Infinity true.
Proof. repeat split. Qed.

(** Doubles between 16 and 32 are [2^-48] apart: a text a little above 20
    is read as 20, one further above as the next double; texts below the
    smallest subnormal double are read as 0, texts above the largest double
    as Infinity. *)
Example StringToNumber_rounds_to_double :
  StringToNumber (lit "20.000000000000001") = Finite 20
  /\ StringToNumber (lit "20.000000000000002") = Finite (5629499534213121 # 281474976710656)
  /\ StringToNumber (lit "9007199254740993") = Finite 9007199254740992
  /\ StringToNumber (lit "0.1") = Finite (3602879701896397 # 36028797018963968)
  /\ StringToNumber (lit "1e-400") = Finite 0
  /\ StringToNumber (lit "1e400") = Infinity false.
Proof. repeat split; vm_compute; reflexivity. Qed.

(** A [topK] that is the text [20.000000000000001] passes the test
    [body.topK <= 20] and is handed on as it is. *)
Example topK_text_read_as_20 :
  parsePostBody (JObject [(lit "prompt", JString (lit "cake"));
                          (lit "topK", JString (lit "20.000000000000001"))])
  = Return (inl {| prompt := lit "cake";
                   topK := JString (lit "20.000000000000001");
                   excludeRecent := JUndefined |}).
Proof. vm_compute. reflexivity. Qed.

Example trim_and_split :
  List.map trim (split_comma (lit " a, b ,,c ")) = [lit "a"; lit "b"; []; lit "c"].
Proof. reflexivity. Qed.

Example comparison_coerces :
  gt (JString (lit "3")) (Finite 0) = Return true
  /\ le (JBool true) (Finite 20) = Return true
  /\ gt (JArray [JNumber (Finite 3)]) (Finite 0) = Return true
  /\ gt (JObject []) (Finite 0) = Return false
  /\ gt (JObject [(lit "toString", JNull)]) (Finite 0) = Throw TypeError.
Proof. repeat split. Qed.

(** [?prompt=birthday cake]: the prompt is echoed, [topK] is 5 and the
    search has no exclusion set. *)
Example scenario_read_form :
  Fixture.handle (Fixture.get_request [("prompt", "birthday cake")]%string) Fixture.env
  = (Return (createSuccessResponse (List.map to_result Fixture.catalog) (lit "birthday cake")),
     {| world := 2%nat;
        trace := [Search tt tt (lit "birthday cake") (JNumber (Finite 5)) None] |}).
Proof. reflexivity. Qed.

(** The body whose [prompt] is the empty string. *)
Example scenario_empty_prompt :
  fst (Fixture.handle (Fixture.post_request (JObject [(lit "prompt", JString [])])) Fixture.env)
  = Return (ErrorResponse "INVALID_REQUEST"
              "prompt is required and must be a non-empty string" 400).
Proof. reflexivity. Qed.

(** A body that is not JSON. *)
Example scenario_malformed_json :
  fst (Fixture.handle {| method := lit "POST"; searchParams := []; json := None |} Fixture.env)
  = Return (ErrorResponse "INVALID_JSON" "Invalid JSON in request body" 400).
Proof. reflexivity. Qed.

(** [excludeRecent] as an array in the write form, with [topK] 1. *)
Example scenario_write_form_exclusion :
  let body := JObject [(lit "prompt", JString (lit " cake "));
                       (lit "topK", JNumber (Finite 1));
                       (lit "excludeRecent", JArray [JString (lit "stickerA")])] in
  Fixture.handle (Fixture.post_request body) Fixture.env
  = (Return (createSuccessResponse
               [{| assetbundleName := lit "stickerB"; name := lit "cake";
                   score := Finite (8 # 10) |}]
               (lit "cake")),
     {| world := 2%nat;
        trace := [ReadJson; Extract [JString (lit "stickerA")] 10;
                  Search tt tt (lit "cake") (JNumber (Finite 1)) (Some [lit "stickerA"])] |}).
Proof. reflexivity. Qed.

(** * Properties of the handler *)

(** Unfolds the handler's monad so that a run can be read step by step. *)
Ltac run_handler :=
  unfold handleRecommend, recommend, parsePostRequest, call_extractRecentStickers,
    call_searchStickersWithScores, try_catch, mbind, ret, emit, lift;
  cbn [VECTORIZE AI world trace json method fst snd].

(** ** Parsing *)
Section ParseProperties.

Lemma parseGet_inv (request : Request) (params : ParsedParams) :
  parseGetRequest request = inl params ->
  exists p,
    searchParams_get (searchParams request) (lit "prompt") = Some p
    /\ trim p <> [] /\ prompt params = trim p.
Proof.
  unfold parseGetRequest.
  destruct (searchParams_get (searchParams request) (lit "prompt")) as [[|c p]|]; try discriminate.
  destruct (trim (c :: p)) as [|c' p'] eqn:Htrim; try discriminate.
  intros H. injection H as <-. cbn.
  eexists. repeat split; eauto. congruence.
Qed.


Lemma parseGet_topK_default (request : Request) (params : ParsedParams) :
  parseGetRequest request = inl params ->
  get_topK_unusable (searchParams_get (searchParams request) (lit "topK")) ->
  topK params = JNumber (Finite 5).
Proof.
  unfold parseGetRequest, get_topK_unusable.
  destruct (searchParams_get (searchParams request) (lit "prompt")) as [[|c p]|]; try discriminate.
  destruct (trim (c :: p)) as [|c' p']; try discriminate.
  intros H. injection H as <-. cbn [topK].
  destruct (searchParams_get (searchParams request) (lit "topK")) as [[|d t]|]; try reflexivity.
  intros [Hempty | [Hnan | [k [Hk Hout]]]].
  - discriminate.
  - rewrite Hnan. reflexivity.
  - rewrite Hk.
    destruct (k <? 1) eqn:H1; cbn [orb]; try reflexivity.
    destruct (k >? 20) eqn:H2; try reflexivity. lia.
Qed.

Lemma parsePost_inv (body : value) (params : ParsedParams) :
  parsePostBody body = Return (inl params) ->
  exists s t,
    get body (lit "prompt") = Return (JString s)
    /\ trim s <> [] /\ prompt params = trim s
    /\ get body (lit "topK") = Return t
    /\ get body (lit "excludeRecent") = Return (excludeRecent params)
    /\ ((topK params = JNumber (Finite 5) /\ post_topK_unusable t)
        \/ (topK params = t /\ post_topK_usable t)).
Proof.
  unfold parsePostBody, JsValue.bind.
  destruct (get body (lit "prompt")) as [bp|]; try discriminate.
  destruct bp as [| |b|n|s|l|o]; cbn [ToBoolean is_string negb orb]; try discriminate;
    try (destruct (ToBoolean _); discriminate).
  - destruct b; discriminate.
  - destruct (negb _); discriminate.
  - cbn [string_value].
    destruct s as [|c s]; [discriminate|]. cbn [negb orb].
    destruct (trim (c :: s)) as [|c' s'] eqn:Htrim; [discriminate|].
    cbn [List.length]. 
    replace (Z.of_nat (S (List.length s')) =? 0) with false by (symmetry; apply Z.eqb_neq; lia).
    destruct (get body (lit "topK")) as [t|]; try discriminate.
    destruct (get body (lit "excludeRecent")) as [ex|] eqn:Hex.
    2:{ destruct (ToBoolean t); [unfold gt, le, JsValue.bind; destruct (ToNumber t) as [n|]; try discriminate;
          destruct (gtb n (Finite 0)); try discriminate; destruct (leb n (Finite 20)); discriminate | discriminate]. }
    unfold gt, le, JsValue.bind.
    destruct (ToBoolean t) eqn:Hb.
    + destruct (ToNumber t) as [n|] eqn:Hn; try discriminate.
      destruct (gtb n (Finite 0)) eqn:Hgt; [destruct (leb n (Finite 20)) eqn:Hle|];
        intros H; injection H as <-; cbn [prompt topK excludeRecent];
        exists (c :: s), t; (repeat split; trivial; try congruence).
      * right. split; trivial. split; trivial. exists n; auto.
      * left. split; trivial. right. exists n; auto.
      * left. split; trivial. right. exists n; auto.
    + intros H; injection H as <-; cbn [prompt topK excludeRecent].
      exists (c :: s), t; repeat split; trivial; try congruence.
      left. split; trivial. left; trivial.
Qed.

End ParseProperties.

Section HandlerProperties.

Variables World AiBinding VectorizeBinding Ids : Type.
Variable extractRecentStickers : list value -> Z -> completion Ids.
Variable searchStickersWithScores :
  AiBinding -> VectorizeBinding -> jsstring -> value -> option Ids ->
  World -> completion (list StickerResult) * World.

Local Abbreviation handler := (handleRecommend extractRecentStickers searchStickersWithScores).
Local Abbreviation HState := (State World AiBinding VectorizeBinding Ids).
Local Abbreviation HEnv := (Env AiBinding VectorizeBinding).

Lemma eqb_eq (a b : jsstring) : eqb a b = true -> a = b.
Proof. unfold eqb. destruct (list_eq_dec N.eq_dec a b); [trivial | discriminate]. Qed.

(** ** Runs and their traces *)
Section RunSpec.

Context {A B : Type}.
Variable P : Event AiBinding VectorizeBinding Ids -> Prop.

Lemma spec_ret (Q : A -> Prop) (a : A) : Q a -> run_spec World P Q (ret a).
Proof.
  intros HQ st. exists []. cbn. rewrite app_nil_r.
  repeat split; auto. intros a' H. injection H as <-. exact HQ.
Qed.

Lemma spec_lift (Q : A -> Prop) (c : completion A) :
  (forall a, c = Return a -> Q a) -> run_spec World P Q (lift c).
Proof.
  intros HQ st. exists []. cbn. rewrite app_nil_r. repeat split; auto.
Qed.

Lemma spec_emit (e : Event AiBinding VectorizeBinding Ids) :
  P e -> run_spec World P (fun _ => True) (emit e).
Proof.
  intros HP st. exists [e]. cbn. repeat split; auto.
Qed.

Lemma spec_bind (Q : A -> Prop) (R : B -> Prop)
    (c : M World AiBinding VectorizeBinding Ids A)
    (k : A -> M World AiBinding VectorizeBinding Ids B) :
  run_spec World P Q c -> (forall a, Q a -> run_spec World P R (k a)) -> run_spec World P R (mbind c k).
Proof.
  intros Hc Hk st. unfold mbind.
  destruct (Hc st) as (ev1 & Ht1 & HP1 & HQ1).
  destruct (c st) as [[a | e] st1]; cbn [fst snd] in *.
  - destruct (Hk a (HQ1 a eq_refl) st1) as (ev2 & Ht2 & HP2 & HQ2).
    exists (ev1 ++ ev2). rewrite Ht2, Ht1, app_assoc.
    repeat split; auto. apply Forall_app; auto.
  - exists ev1. repeat split; auto. intros b H. discriminate.
Qed.

Lemma spec_try_catch (Q : A -> Prop) (body : M World AiBinding VectorizeBinding Ids A)
    (handler : exn -> M World AiBinding VectorizeBinding Ids A) :
  run_spec World P Q body -> (forall e, run_spec World P Q (handler e)) ->
  run_spec World P Q (try_catch body handler).
Proof.
  intros Hb Hh st. unfold try_catch.
  destruct (Hb st) as (ev1 & Ht1 & HP1 & HQ1).
  destruct (body st) as [[a | e] st1]; cbn [fst snd] in *.
  - exists ev1. repeat split; auto.
  - destruct (Hh e st1) as (ev2 & Ht2 & HP2 & HQ2).
    exists (ev1 ++ ev2). rewrite Ht2, Ht1, app_assoc.
    repeat split; auto. apply Forall_app; auto.
Qed.

End RunSpec.

Lemma spec_call_extract (P : Event AiBinding VectorizeBinding Ids -> Prop)
    (messages : list value) (maxCount : Z) :
  P (Extract messages maxCount) ->
  run_spec World P (fun ids => extractRecentStickers messages maxCount = Return ids)
    (call_extractRecentStickers extractRecentStickers messages maxCount).
Proof.
  intros HP. unfold call_extractRecentStickers.
  apply spec_bind with (Q := fun _ => True); [apply spec_emit; exact HP|].
  intros _ _. apply spec_lift. auto.
Qed.

Lemma spec_call_search (P : Event AiBinding VectorizeBinding Ids -> Prop)
    (ai : AiBinding) (vectorize : VectorizeBinding) (prompt : jsstring) (topK : value)
    (excludeIds : option Ids) :
  P (Search ai vectorize prompt topK excludeIds) ->
  run_spec World P
    (fun results =>
       exists w, fst (searchStickersWithScores ai vectorize prompt topK excludeIds w)
                 = Return results)
    (call_searchStickersWithScores searchStickersWithScores ai vectorize prompt topK excludeIds).
Proof.
  intros HP. unfold call_searchStickersWithScores.
  apply spec_bind with (Q := fun _ => True); [apply spec_emit; exact HP|].
  intros _ _ st. exists [].
  destruct (searchStickersWithScores _ _ _ _ _ (world st)) as [r w] eqn:Hrun.
  cbn. rewrite app_nil_r. repeat split; auto.
  intros results ->. exists (world st). rewrite Hrun. reflexivity.
Qed.

Lemma parseGet_outcome (request : Request) :
  method request = lit "GET" -> parse_outcome request (parseGetRequest request).
Proof.
  intros Hget. unfold parse_outcome.
  destruct (parseGetRequest request) as [p | r] eqn:Hparse; [left; auto|].
  unfold parseGetRequest in Hparse.
  destruct (searchParams_get (searchParams request) (lit "prompt")) as [[|c s]|];
    try (injection Hparse as <-; discriminate).
  destruct (trim (c :: s)); [injection Hparse as <-|]; discriminate.
Qed.

Lemma parsePost_outcome (request : Request) (body : value) (params : ParsedParams + Response) :
  method request = lit "POST" -> json request = Some body ->
  parsePostBody body = Return params -> parse_outcome request params.
Proof.
  intros Hpost Hjson Hparse. unfold parse_outcome.
  destruct params as [p | r]; [right; eauto|].
  unfold parsePostBody, JsValue.bind in Hparse.
  destruct (get body (lit "prompt")) as [bp|]; [|discriminate].
  destruct (_ || _ || _); [injection Hparse as <-; discriminate|].
  destruct (get body (lit "topK")) as [t|]; [|discriminate].
  destruct (if ToBoolean t then _ else _); [|discriminate].
  destruct (get body (lit "excludeRecent")); discriminate.
Qed.

Lemma recommend_spec (request : Request) (env : HEnv) (vectorize : VectorizeBinding)
    (params : ParsedParams + Response) :
  VECTORIZE env = Some vectorize ->
  parse_outcome request params ->
  run_spec World (search_as_parsed extractRecentStickers request env)
    (response_as_searched extractRecentStickers searchStickersWithScores request env)
    (recommend extractRecentStickers searchStickersWithScores env vectorize params).
Proof.
  intros Hv Hparsed. unfold recommend.
  destruct params as [p | response].
  2:{ apply spec_ret. destruct response; [destruct Hparsed; reflexivity | exact I]. }
  cbn in Hparsed.
  apply spec_bind with (Q := derived_exclusion extractRecentStickers p).
  - unfold derived_exclusion.
    destruct (excludeRecent p) as [| |b|n|s|messages|o]; try (apply spec_ret; reflexivity).
    eapply spec_bind; [apply spec_call_extract; discriminate|].
    cbv beta. intros ids Hids. apply spec_ret. eauto.
  - intros excludeIds Hderived.
    eapply spec_bind; [apply spec_call_search|].
    + intros _. exists vectorize, p, excludeIds. auto.
    + cbv beta. intros results [w Hw]. apply spec_ret.
      cbn. exists vectorize, p, excludeIds, w. auto.
Qed.

(** Every [Search] event a run of the handler adds to the trace carries the
    bindings of the environment, the prompt and the [topK] of the parsed
    parameters, and the exclusion set derived from them; and a success
    response carries the results of such a search. *)
Lemma handler_spec (request : Request) (env : HEnv) :
  run_spec World (search_as_parsed extractRecentStickers request env)
    (response_as_searched extractRecentStickers searchStickersWithScores request env)
    (handler request env).
Proof.
  unfold handleRecommend. apply spec_try_catch.
  2:{ intros e. eapply spec_bind; [apply spec_emit; discriminate|].
      intros; apply spec_ret; exact I. }
  destruct (VECTORIZE env) as [vectorize|] eqn:Hv; [|apply spec_ret; exact I].
  destruct (eqb (method request) (lit "GET")) eqn:Hget.
  { apply eqb_eq in Hget. apply recommend_spec; trivial.
    apply parseGet_outcome; trivial. }
  destruct (eqb (method request) (lit "POST")) eqn:Hpost; [|apply spec_ret; exact I].
  apply eqb_eq in Hpost.
  apply spec_bind with (Q := parse_outcome request).
  - unfold parsePostRequest.
    eapply spec_bind; [apply spec_emit; discriminate|]. intros _ _.
    destruct (json request) as [body|] eqn:Hjson.
    + apply spec_lift. intros a Ha. apply parsePost_outcome with body; trivial.
    + apply spec_ret. discriminate.
  - intros params Hparams. apply recommend_spec; trivial.
Qed.

(** C5. While [env.VECTORIZE] is absent the handler answers
    VECTORIZE_UNAVAILABLE with status 503 whatever the request is, and it
    leaves the state as it found it: the body is not read, nothing is
    parsed or extracted, and no capability is called. *)
Theorem vectorize_unavailable_first (request : Request) (env : HEnv) (st : HState) :
  VECTORIZE env = None ->
  handler request env st =
    (Return (ErrorResponse "VECTORIZE_UNAVAILABLE"
               "Sticker recommendation service is not available" 503), st).
Proof.
  intros Hnone. run_handler. rewrite Hnone. reflexivity.
Qed.

(** A method that is neither GET nor POST, with the vector search
    configured: METHOD_NOT_ALLOWED, status 405, state untouched. *)
Lemma other_method_405 (request : Request) (env : HEnv) (vectorize : VectorizeBinding)
    (st : HState) :
  VECTORIZE env = Some vectorize ->
  eqb (method request) (lit "GET") = false ->
  eqb (method request) (lit "POST") = false ->
  handler request env st =
    (Return (ErrorResponse "METHOD_NOT_ALLOWED"
               "Only GET and POST methods are supported" 405), st).
Proof.
  intros Hv Hget Hpost. run_handler. rewrite Hv, Hget, Hpost. reflexivity.
Qed.

(** C3, amended. While [env.VECTORIZE] is configured, a request whose
    method is neither GET nor POST gets METHOD_NOT_ALLOWED with status 405,
    whatever the rest of the request, and nothing else happens: the state
    is left as it was. *)
Theorem method_not_allowed_when_configured (request : Request) (env : HEnv)
    (vectorize : VectorizeBinding) (st : HState) :
  VECTORIZE env = Some vectorize ->
  method request <> lit "GET" ->
  method request <> lit "POST" ->
  handler request env st =
    (Return (ErrorResponse "METHOD_NOT_ALLOWED"
               "Only GET and POST methods are supported" 405), st).
Proof.
  intros Hv Hget Hpost. apply other_method_405 with vectorize; trivial;
    unfold eqb; destruct (list_eq_dec _ _ _); congruence.
Qed.

(** C10. With the vector search configured, an OPTIONS request gets
    METHOD_NOT_ALLOWED with status 405, although every success response
    lists OPTIONS in its Access-Control-Allow-Methods header. *)
Theorem options_request_rejected (request : Request) (env : HEnv)
    (vectorize : VectorizeBinding) (st : HState) :
  VECTORIZE env = Some vectorize ->
  method request = lit "OPTIONS" ->
  handler request env st =
    (Return (ErrorResponse "METHOD_NOT_ALLOWED"
               "Only GET and POST methods are supported" 405), st)
  /\ forall results query,
       In ("Access-Control-Allow-Methods", "GET, POST, OPTIONS")%string
          (response_headers (createSuccessResponse results query)).
Proof.
  intros Hv Hm. split.
  - apply other_method_405 with vectorize; trivial; rewrite Hm; reflexivity.
  - intros. cbn. auto.
Qed.

End HandlerProperties.

(** C5 at a DELETE request. *)
Lemma vectorize_unavailable_first_witness :
  Fixture.handle (Fixture.other_request "DELETE") Fixture.env_unavailable =
    (Return (ErrorResponse "VECTORIZE_UNAVAILABLE"
               "Sticker recommendation service is not available" 503), Fixture.start).
Proof.
  apply (vectorize_unavailable_first Fixture.World unit unit (list jsstring)
           Fixture.extract Fixture.search).
  reflexivity.
Defined.

(** C3 as stated fails: a DELETE request handled while [env.VECTORIZE] is
    absent gets VECTORIZE_UNAVAILABLE with status 503, not
    METHOD_NOT_ALLOWED with status 405. *)
Lemma method_not_allowed_counterexample :
  let request := Fixture.other_request "DELETE" in
  let response := fst (Fixture.handle request Fixture.env_unavailable) in
  eqb (method request) (lit "GET") = false
  /\ eqb (method request) (lit "POST") = false
  /\ response = Return (ErrorResponse "VECTORIZE_UNAVAILABLE"
                          "Sticker recommendation service is not available" 503)
  /\ response <> Return (ErrorResponse "METHOD_NOT_ALLOWED"
                           "Only GET and POST methods are supported" 405).
Proof.
  cbv zeta. repeat split; try reflexivity. vm_compute. discriminate.
Qed.

(** C3, amended, at a DELETE request. *)
Lemma method_not_allowed_when_configured_witness :
  Fixture.handle (Fixture.other_request "DELETE") Fixture.env =
    (Return (ErrorResponse "METHOD_NOT_ALLOWED"
               "Only GET and POST methods are supported" 405), Fixture.start).
Proof.
  apply (method_not_allowed_when_configured Fixture.World unit unit (list jsstring)
           Fixture.extract Fixture.search _ _ tt);
    [ reflexivity | vm_compute; discriminate | vm_compute; discriminate ].
Defined.

(** C10 at an OPTIONS request. *)
Lemma options_request_rejected_witness :
  Fixture.handle (Fixture.other_request "OPTIONS") Fixture.env =
    (Return (ErrorResponse "METHOD_NOT_ALLOWED"
               "Only GET and POST methods are supported" 405), Fixture.start)
  /\ In ("Access-Control-Allow-Methods", "GET, POST, OPTIONS")%string
        (response_headers (createSuccessResponse [] (lit "cake"))).
Proof.
  destruct (options_request_rejected Fixture.World unit unit (list jsstring)
              Fixture.extract Fixture.search
              (Fixture.other_request "OPTIONS") Fixture.env tt Fixture.start
              eq_refl eq_refl) as [Hresponse Hheaders].
  split; [ exact Hresponse | apply Hheaders ].
Defined.

(** C1, amended. The effective [topK] is exactly 5 in the read form when
    the [topK] parameter is absent or empty, or [parseInt] finds no integer
    at its start, or finds one outside [1, 20]; and in the write form when
    the body's [topK] is falsy or converts to a Number that is NaN, not
    above 0, or above 20. *)
Theorem topK_falls_back_to_5 :
  (forall request params,
      parseGetRequest request = inl params ->
      get_topK_unusable (searchParams_get (searchParams request) (lit "topK")) ->
      topK params = JNumber (Finite 5))
  /\ (forall body body_topK params,
         parsePostBody body = Return (inl params) ->
         get body (lit "topK") = Return body_topK ->
         post_topK_unusable body_topK ->
         topK params = JNumber (Finite 5)).
Proof.
  split.
  - apply parseGet_topK_default.
  - intros body body_topK params Hparse Hget Hbad.
    destruct (parsePost_inv body params Hparse)
      as (s & t & _ & _ & _ & Ht & _ & [[H5 _] | [Hsame [Htruthy (n & Hn & Hgt & Hle)]]]);
      [exact H5|].
    assert (t = body_topK) by congruence. subst t.
    destruct Hbad as [Hfalsy | (m & Hm & [Hngt | Hnle])]; congruence.
Qed.

(** C1 as stated fails in the write form: a body with [topK] 0.5, a Number
    outside [1, 20], is parsed with the effective [topK] 0.5, not 5. *)
Lemma topK_falls_back_counterexample :
  let supplied := JNumber (Finite (1 # 2)) in
  let body := JObject [(lit "prompt", JString (lit "cake")); (lit "topK", supplied)] in
  topK_non_numeric_or_outside_1_20 supplied = true
  /\ parsePostBody body =
       Return (inl {| prompt := lit "cake"; topK := supplied; excludeRecent := JUndefined |})
  /\ supplied <> JNumber (Finite 5).
Proof.
  cbv zeta. repeat split; try reflexivity. discriminate.
Qed.

(** C1, amended, at [topK=21] in the read form and at [topK] 20.5 in the
    write form. *)
Lemma topK_falls_back_to_5_witness :
  let request := Fixture.get_request [("prompt", "cake"); ("topK", "21")]%string in
  let body_topK := JNumber (Finite (41 # 2)) in
  let body := JObject [(lit "prompt", JString (lit "cake")); (lit "topK", body_topK)] in
  (exists params,
      parseGetRequest request = inl params
      /\ get_topK_unusable (searchParams_get (searchParams request) (lit "topK"))
      /\ topK params = JNumber (Finite 5))
  /\ (exists params,
         parsePostBody body = Return (inl params)
         /\ get body (lit "topK") = Return body_topK
         /\ post_topK_unusable body_topK
         /\ topK params = JNumber (Finite 5)).
Proof.
  cbv zeta. destruct topK_falls_back_to_5 as [Hget Hpost].
  assert (Hg : get_topK_unusable (Some (lit "21"))).
  { right. right. exists 21. split; [reflexivity | lia]. }
  assert (Hp : post_topK_unusable (JNumber (Finite (41 # 2)))).
  { right. exists (Finite (41 # 2)). split; [reflexivity | right; reflexivity]. }
  split.
  - eexists. split; [reflexivity|]. split; [exact Hg|].
    apply (Hget (Fixture.get_request [("prompt", "cake"); ("topK", "21")]%string) _ eq_refl Hg).
  - eexists. split; [reflexivity|]. split; [reflexivity|]. split; [exact Hp|].
    apply (Hpost (JObject [(lit "prompt", JString (lit "cake"));
                           (lit "topK", JNumber (Finite (41 # 2)))])
             (JNumber (Finite (41 # 2))) _ eq_refl eq_refl Hp).
Defined.

(** ** The arguments of the search *)
Section SearchArguments.

Variables World AiBinding VectorizeBinding Ids : Type.
Variable extractRecentStickers : list value -> Z -> completion Ids.
Variable searchStickersWithScores :
  AiBinding -> VectorizeBinding -> jsstring -> value -> option Ids ->
  World -> completion (list StickerResult) * World.

Local Abbreviation handler := (handleRecommend extractRecentStickers searchStickersWithScores).




End SearchArguments.



(** ** Validation of the prompt *)
Section PromptValidation.

Variables World AiBinding VectorizeBinding Ids : Type.
Variable extractRecentStickers : list value -> Z -> completion Ids.
Variable searchStickersWithScores :
  AiBinding -> VectorizeBinding -> jsstring -> value -> option Ids ->
  World -> completion (list StickerResult) * World.

Local Abbreviation handler := (handleRecommend extractRecentStickers searchStickersWithScores).

Lemma parseGet_bad_prompt (request : Request) :
  prompt_param_missing_or_blank (searchParams_get (searchParams request) (lit "prompt")) ->
  parseGetRequest request =
    inr (ErrorResponse "INVALID_REQUEST" "prompt query parameter is required" 400).
Proof.
  unfold parseGetRequest, prompt_param_missing_or_blank.
  destruct (searchParams_get (searchParams request) (lit "prompt")) as [[|c s]|];
    try reflexivity.
  intros ->. reflexivity.
Qed.

Lemma parsePost_bad_prompt (body body_prompt : value) :
  get body (lit "prompt") = Return body_prompt ->
  prompt_missing_or_blank body_prompt ->
  parsePostBody body =
    Return (inr (ErrorResponse "INVALID_REQUEST"
                   "prompt is required and must be a non-empty string" 400)).
Proof.
  intros Hget Hbad. unfold parsePostBody, JsValue.bind. rewrite Hget.
  destruct body_prompt as [| |b|n|s|l|o]; cbn [is_string negb]; rewrite ?orb_true_r;
    try reflexivity.
  cbn in Hbad. cbn [string_value]. rewrite Hbad. cbn [List.length Z.of_nat Z.eqb].
  rewrite orb_true_r. reflexivity.
Qed.

(** C6, amended. While [env.VECTORIZE] is configured, a GET request whose
    [prompt] parameter is missing or empty after trimming, and a POST
    request whose body is JSON other than [null] and whose [prompt] is
    missing, not a string, or empty after trimming, get INVALID_REQUEST
    (status 400); the world of the embedder and the vector store is
    untouched, and the run adds no event to the trace but the reading of
    the body: no extraction, no search. *)
Theorem invalid_prompt_rejected_early (request : Request)
    (env : Env AiBinding VectorizeBinding) (vectorize : VectorizeBinding)
    (st : State World AiBinding VectorizeBinding Ids) :
  VECTORIZE env = Some vectorize ->
  (method request = lit "GET"
   /\ prompt_param_missing_or_blank (searchParams_get (searchParams request) (lit "prompt")))
  \/ (method request = lit "POST"
      /\ exists body body_prompt,
           json request = Some body
           /\ get body (lit "prompt") = Return body_prompt
           /\ prompt_missing_or_blank body_prompt) ->
  (exists message,
      fst (handler request env st) = Return (ErrorResponse "INVALID_REQUEST" message 400))
  /\ world (snd (handler request env st)) = world st
  /\ forall ev, In ev (new_events (handler request env) st) -> ev = ReadJson.
Proof.
  intros Hv [[Hget Hbad] | [Hpost (body & body_prompt & Hjson & Hprompt & Hbad)]];
    unfold new_events; run_handler; rewrite Hv.
  - rewrite Hget. cbn [eqb]. replace (eqb (lit "GET") (lit "GET")) with true by reflexivity.
    rewrite (parseGet_bad_prompt request Hbad). cbn.
    rewrite skipn_all. repeat split; eauto. intros ev [].
  - rewrite Hpost.
    replace (eqb (lit "POST") (lit "GET")) with false by reflexivity.
    replace (eqb (lit "POST") (lit "POST")) with true by reflexivity.
    rewrite Hjson, (parsePost_bad_prompt body body_prompt Hprompt Hbad). cbn.
    rewrite skipn_app, skipn_all, Nat.sub_diag. cbn.
    repeat split; eauto. intros ev [<- | []]. reflexivity.
Qed.

(** A POST request whose body is the JSON text [null] has no prompt, yet
    reading [body.prompt] throws: the handler answers INTERNAL_ERROR with
    status 500. *)
Lemma null_body_internal_error (request : Request) (env : Env AiBinding VectorizeBinding)
    (vectorize : VectorizeBinding) (st : State World AiBinding VectorizeBinding Ids) :
  VECTORIZE env = Some vectorize ->
  method request = lit "POST" ->
  json request = Some JNull ->
  handler request env st =
    (Return (ErrorResponse "INTERNAL_ERROR" "An internal error occurred" 500),
     {| world := world st; trace := (trace st ++ [ReadJson]) ++ [ConsoleError TypeError] |}).
Proof.
  intros Hv Hpost Hjson. run_handler. rewrite Hv, Hpost, Hjson. reflexivity.
Qed.

End PromptValidation.

(** C6 as stated fails: a GET request without a prompt, handled while
    [env.VECTORIZE] is absent, gets VECTORIZE_UNAVAILABLE, not
    INVALID_REQUEST. *)
Lemma invalid_prompt_counterexample :
  let request := Fixture.get_request [] in
  let response := fst (Fixture.handle request Fixture.env_unavailable) in
  searchParams_get (searchParams request) (lit "prompt") = None
  /\ response = Return (ErrorResponse "VECTORIZE_UNAVAILABLE"
                          "Sticker recommendation service is not available" 503)
  /\ response <> Return (ErrorResponse "INVALID_REQUEST"
                           "prompt query parameter is required" 400).
Proof.
  cbv zeta. repeat split. vm_compute. discriminate.
Qed.

(** C6, amended, at a POST request with the body [{"prompt": "  "}]. *)
Lemma invalid_prompt_rejected_early_witness :
  let request := Fixture.post_request (JObject [(lit "prompt", JString (lit "  "))]) in
  (exists message,
      fst (Fixture.handle request Fixture.env)
        = Return (ErrorResponse "INVALID_REQUEST" message 400))
  /\ world (snd (Fixture.handle request Fixture.env)) = O
  /\ forall ev, In ev (new_events (handleRecommend Fixture.extract Fixture.search
                                     request Fixture.env) Fixture.start) -> ev = ReadJson.
Proof.
  cbv zeta.
  apply (invalid_prompt_rejected_early Fixture.World unit unit (list jsstring)
           Fixture.extract Fixture.search _ Fixture.env tt Fixture.start eq_refl).
  right. split; [reflexivity|].
  exists (JObject [(lit "prompt", JString (lit "  "))]), (JString (lit "  ")).
  repeat split.
Defined.

(** ** An [excludeRecent] of the wrong type *)
Section ExcludeRecentType.

Variables World AiBinding VectorizeBinding Ids : Type.
Variable extractRecentStickers : list value -> Z -> completion Ids.
Variable searchStickersWithScores :
  AiBinding -> VectorizeBinding -> jsstring -> value -> option Ids ->
  World -> completion (list StickerResult) * World.

Local Abbreviation handler := (handleRecommend extractRecentStickers searchStickersWithScores).


End ExcludeRecentType.



(** ** The [excludeRecent] query parameter *)
Section ExcludeRecentParam.

Lemma split_comma_not_nil (s : jsstring) : split_comma s <> [].
Proof.
  induction s as [|c r IH]; cbn; [discriminate|].
  destruct (c =? comma)%N; [discriminate|].
  destruct (split_comma r); [contradiction | discriminate].
Qed.

Lemma split_comma_piece (p : jsstring) :
  ~ In comma p -> split_comma p = [p].
Proof.
  induction p as [|c r IH]; intros Hfree; [reflexivity|]. cbn.
  destruct (N.eqb_spec c comma) as [-> | Hc]; [exfalso; apply Hfree; left; reflexivity|].
  rewrite IH; [reflexivity|]. intros Hin. apply Hfree. right. exact Hin.
Qed.

Lemma split_comma_app (p rest : jsstring) :
  ~ In comma p -> split_comma (p ++ comma :: rest) = p :: split_comma rest.
Proof.
  induction p as [|c r IH]; intros Hfree; cbn.
  - reflexivity.
  - destruct (N.eqb_spec c comma) as [-> | Hc]; [exfalso; apply Hfree; left; reflexivity|].
    rewrite IH; [reflexivity|]. intros Hin. apply Hfree. right. exact Hin.
Qed.

(** [split_comma] undoes [join_comma] on pieces without commas. *)
Lemma split_join (pieces : list jsstring) :
  pieces <> [] -> Forall (fun p => ~ In comma p) pieces ->
  split_comma (join_comma pieces) = pieces.
Proof.
  induction pieces as [|p ps IH]; intros Hne Hfree; [contradiction|].
  inversion Hfree as [|? ? Hp Hps]; subst.
  destruct ps as [|q qs]; [apply split_comma_piece; exact Hp|].
  change (join_comma (p :: q :: qs)) with (p ++ comma :: join_comma (q :: qs)).
  rewrite split_comma_app by exact Hp. rewrite IH; [reflexivity | discriminate | exact Hps].
Qed.

(** [join_comma] undoes [split_comma], whose pieces hold no comma. *)
Lemma join_split (s : jsstring) :
  join_comma (split_comma s) = s /\ Forall (fun p => ~ In comma p) (split_comma s).
Proof.
  induction s as [|c r [IHj IHf]]; cbn.
  - split; [reflexivity|]. constructor; [intros [] | constructor].
  - destruct (N.eqb_spec c comma) as [-> | Hc].
    + pose proof (split_comma_not_nil r) as Hne.
      destruct (split_comma r) as [|q qs] eqn:Hsplit; [contradiction|].
      split.
      * change (join_comma ([] :: q :: qs)) with ([] ++ comma :: join_comma (q :: qs)).
        rewrite IHj. reflexivity.
      * constructor; [intros [] | exact IHf].
    + pose proof (split_comma_not_nil r) as Hne.
      destruct (split_comma r) as [|q qs] eqn:Hsplit; [contradiction|].
      apply Forall_cons_iff in IHf. destruct IHf as [Hq Hqs]. split.
      * destruct qs as [|q' qs']; cbn in *; rewrite <- IHj; reflexivity.
      * constructor; [|exact Hqs]. intros [Heq | Hin]; [congruence | exact (Hq Hin)].
Qed.

(** The comma-separated elements of a string exist and are the pieces
    [split] returns. *)
Lemma comma_separated_split (s : jsstring) (pieces : list jsstring) :
  comma_separated s pieces <-> pieces = split_comma s.
Proof.
  split.
  - intros (Hne & Hjoin & Hfree). rewrite <- Hjoin. symmetry. apply split_join; assumption.
  - intros ->. destruct (join_split s) as [Hj Hf].
    split; [apply split_comma_not_nil | split; assumption].
Qed.

Lemma filter_non_empty (l : list jsstring) :
  filter (fun s => 0 <? Z.of_nat (List.length s)) l = filter (fun s => negb (eqb s [])) l.
Proof.
  apply filter_ext. intros [|c r]; reflexivity.
Qed.

(** C8, amended. For a GET request that parses: when the [excludeRecent]
    parameter is present and not empty, the parsed [excludeRecent] is
    exactly the list of its comma-separated elements, each trimmed, the
    empty ones dropped; when the parameter is absent or empty, no list is
    produced ([excludeRecent] is [undefined]). *)
Theorem excludeRecent_param_parsed (request : Request) (params : ParsedParams) :
  parseGetRequest request = inl params ->
  let excludeParam := searchParams_get (searchParams request) (lit "excludeRecent") in
  (forall s, excludeParam = Some s -> s <> [] ->
     (exists pieces, comma_separated s pieces)
     /\ forall pieces, comma_separated s pieces ->
          excludeRecent params = JArray (List.map JString (trimmed_non_empty pieces)))
  /\ (excludeParam = None \/ excludeParam = Some [] -> excludeRecent params = JUndefined).
Proof.
  unfold parseGetRequest.
  destruct (searchParams_get (searchParams request) (lit "prompt")) as [[|c p]|]; try discriminate.
  destruct (trim (c :: p)) as [|c' p']; try discriminate.
  intros H. injection H as <-. cbn [excludeRecent]. cbv zeta.
  destruct (searchParams_get (searchParams request) (lit "excludeRecent")) as [[|d e]|].
  - split; [intros s Hs Hne; congruence | reflexivity].
  - split; [|intros [H | H]; discriminate].
    intros s Hs Hne. injection Hs as <-. split.
    + exists (split_comma (d :: e)). apply comma_separated_split. reflexivity.
    + intros pieces Hpieces. apply comma_separated_split in Hpieces. subst pieces.
      unfold trimmed_non_empty. rewrite filter_non_empty. reflexivity.
  - split; [intros s Hs; discriminate | reflexivity].
Qed.

End ExcludeRecentParam.

(** C8 as stated fails at a parameter that is present but empty
    ([?prompt=cake&excludeRecent=]): its comma-separated elements are the
    one empty string, which trimmed and dropped leaves the empty list, but
    the parser produces no list. *)
Lemma excludeRecent_param_counterexample :
  let request := Fixture.get_request [("prompt", "cake"); ("excludeRecent", EmptyString)]%string in
  searchParams_get (searchParams request) (lit "excludeRecent") = Some []
  /\ comma_separated [] [[]]
  /\ trimmed_non_empty [[]] = []
  /\ parseGetRequest request
       = inl {| prompt := lit "cake"; topK := JNumber (Finite 5); excludeRecent := JUndefined |}
  /\ JUndefined <> JArray (List.map JString (trimmed_non_empty [[]])).
Proof.
  cbv zeta. repeat split; try discriminate.
  constructor; [intros [] | constructor].
Qed.

(** C8, amended, at [?prompt=cake&excludeRecent=a, b,,a]. *)
Lemma excludeRecent_param_parsed_witness :
  let request :=
    Fixture.get_request [("prompt", "cake"); ("excludeRecent", "a, b,,a")]%string in
  let pieces := [lit "a"; lit " b"; []; lit "a"] in
  exists params,
    parseGetRequest request = inl params
    /\ comma_separated (lit "a, b,,a") pieces
    /\ excludeRecent params = JArray [JString (lit "a"); JString (lit "b"); JString (lit "a")].
Proof.
  cbv zeta.
  assert (Hpieces : comma_separated (lit "a, b,,a") [lit "a"; lit " b"; []; lit "a"]).
  { apply comma_separated_split. reflexivity. }
  eexists. split; [reflexivity|]. split; [exact Hpieces|].
  destruct (excludeRecent_param_parsed
              (Fixture.get_request [("prompt", "cake"); ("excludeRecent", "a, b,,a")]%string)
              _ eq_refl) as [Hpresent _].
  destruct (Hpresent (lit "a, b,,a") eq_refl ltac:(discriminate)) as [_ Hlist].
  exact (Hlist _ Hpieces).
Defined.

(** ** Two runs on the same request *)
Section Determinism.

Variables World AiBinding VectorizeBinding Ids : Type.
Variable extractRecentStickers : list value -> Z -> completion Ids.
Variable searchStickersWithScores :
  AiBinding -> VectorizeBinding -> jsstring -> value -> option Ids ->
  World -> completion (list StickerResult) * World.

Local Abbreviation handler := (handleRecommend extractRecentStickers searchStickersWithScores).
Local Abbreviation independent :=
  (@state_independent World AiBinding VectorizeBinding Ids _).

(** The embedder and the vector store behave the same from one run to the
    next: what a search returns does not depend on the world it is run in. *)
Hypothesis search_unchanged :
  forall ai vectorize prompt topK excludeIds w w',
    fst (searchStickersWithScores ai vectorize prompt topK excludeIds w)
    = fst (searchStickersWithScores ai vectorize prompt topK excludeIds w').

Lemma independent_ret {A : Type} (a : A) : independent (ret a).
Proof. intros st st'. reflexivity. Qed.

Lemma independent_lift {A : Type} (c : completion A) : independent (lift c).
Proof. intros st st'. reflexivity. Qed.

Lemma independent_emit (e : Event AiBinding VectorizeBinding Ids) : independent (emit e).
Proof. intros st st'. reflexivity. Qed.

Lemma independent_bind {A B : Type} (c : M World AiBinding VectorizeBinding Ids A)
    (k : A -> M World AiBinding VectorizeBinding Ids B) :
  independent c -> (forall a, independent (k a)) ->
  independent (mbind c k).
Proof.
  intros Hc Hk st st'. unfold mbind. specialize (Hc st st').
  destruct (c st) as [[a | e] s1], (c st') as [[a' | e'] s1']; cbn in Hc;
    try discriminate; injection Hc as <-; [apply Hk | reflexivity].
Qed.

Lemma independent_try_catch {A : Type} (body : M World AiBinding VectorizeBinding Ids A)
    (h : exn -> M World AiBinding VectorizeBinding Ids A) :
  independent body -> (forall e, independent (h e)) ->
  independent (try_catch body h).
Proof.
  intros Hb Hh st st'. unfold try_catch. specialize (Hb st st').
  destruct (body st) as [[a | e] s1], (body st') as [[a' | e'] s1']; cbn in Hb;
    try discriminate; injection Hb as <-; [reflexivity | apply Hh].
Qed.

Lemma independent_search (ai : AiBinding) (vectorize : VectorizeBinding) (prompt : jsstring)
    (topK : value) (excludeIds : option Ids) :
  independent
    (call_searchStickersWithScores searchStickersWithScores ai vectorize prompt topK excludeIds).
Proof.
  unfold call_searchStickersWithScores.
  apply independent_bind; [apply independent_emit|].
  intros _ st st'.
  pose proof (search_unchanged ai vectorize prompt topK excludeIds (world st) (world st')) as H.
  destruct (searchStickersWithScores _ _ _ _ _ (world st)) as [r w].
  destruct (searchStickersWithScores _ _ _ _ _ (world st')) as [r' w'].
  exact H.
Qed.

Lemma independent_recommend (env : Env AiBinding VectorizeBinding)
    (vectorize : VectorizeBinding) (params : ParsedParams + Response) :
  independent
    (recommend extractRecentStickers searchStickersWithScores env vectorize params).
Proof.
  unfold recommend. destruct params as [p | response]; [|apply independent_ret].
  apply independent_bind.
  - destruct (excludeRecent p); try apply independent_ret.
    apply independent_bind; [|intros; apply independent_ret].
    unfold call_extractRecentStickers.
    apply independent_bind; [apply independent_emit | intros; apply independent_lift].
  - intros excludeIds.
    apply independent_bind; [apply independent_search | intros; apply independent_ret].
Qed.

Lemma independent_handler (request : Request) (env : Env AiBinding VectorizeBinding) :
  independent (handler request env).
Proof.
  unfold handleRecommend. apply independent_try_catch.
  2:{ intros e. apply independent_bind; [apply independent_emit | intros; apply independent_ret]. }
  destruct (VECTORIZE env) as [vectorize|]; [|apply independent_ret].
  destruct (eqb (method request) (lit "GET")); [apply independent_recommend|].
  destruct (eqb (method request) (lit "POST")); [|apply independent_ret].
  apply independent_bind; [|intros; apply independent_recommend].
  unfold parsePostRequest.
  apply independent_bind; [apply independent_emit|]. intros _.
  destruct (json request); [apply independent_lift | apply independent_ret].
Qed.

Lemma try_catch_returns {A : Type} (body : M World AiBinding VectorizeBinding Ids A)
    (h : exn -> M World AiBinding VectorizeBinding Ids A)
    (st : State World AiBinding VectorizeBinding Ids) :
  (forall e s, exists a, fst (h e s) = Return a) ->
  exists a, fst (try_catch body h st) = Return a.
Proof.
  intros Hh. unfold try_catch. destruct (body st) as [[a | e] s1]; cbn; eauto.
Qed.

(** C9. Two runs of the handler on the same request in the same
    environment end with the same response, whatever the earlier runs left
    behind, as long as the embedder and the vector store answer as before;
    the response is a response (the handler throws nothing), and two equal
    success responses list the same stickers in the same order. *)
Theorem same_request_same_response (request : Request)
    (env : Env AiBinding VectorizeBinding)
    (st st' : State World AiBinding VectorizeBinding Ids) :
  fst (handler request env st) = fst (handler request env st')
  /\ fst (handler request env (snd (handler request env st))) = fst (handler request env st)
  /\ exists response, fst (handler request env st) = Return response.
Proof.
  split; [apply independent_handler|]. split; [apply independent_handler|].
  unfold handleRecommend. apply try_catch_returns.
  intros e s. eexists. reflexivity.
Qed.

End Determinism.

(** C9 at two runs in a row on [?prompt=cake&excludeRecent=stickerA], the
    second from the state the first has left. *)
Lemma same_request_same_response_witness :
  let request :=
    Fixture.get_request [("prompt", "cake"); ("excludeRecent", "stickerA")]%string in
  let run := handleRecommend Fixture.extract Fixture.search request Fixture.env in
  (forall w w', fst (Fixture.search tt tt (lit "cake") (JNumber (Finite 5))
                       (Some [lit "stickerA"]) w)
                = fst (Fixture.search tt tt (lit "cake") (JNumber (Finite 5))
                         (Some [lit "stickerA"]) w'))
  /\ fst (run (snd (run Fixture.start))) = fst (run Fixture.start)
  /\ snd (run Fixture.start) <> Fixture.start.
Proof.
  cbv zeta.
  assert (Hunchanged : forall ai vectorize prompt topK excludeIds w w',
             fst (Fixture.search ai vectorize prompt topK excludeIds w)
             = fst (Fixture.search ai vectorize prompt topK excludeIds w')).
  { intros. reflexivity. }
  split; [intros; apply Hunchanged|]. split; [|vm_compute; discriminate].
  destruct (same_request_same_response Fixture.World unit unit (list jsstring)
              Fixture.extract Fixture.search Hunchanged
              (Fixture.get_request [("prompt", "cake"); ("excludeRecent", "stickerA")]%string)
              Fixture.env Fixture.start Fixture.start) as (_ & Hagain & _).
  exact Hagain.
Defined.

(** ** Exclusion of recently used stickers *)
Section Exclusion.

Variables World AiBinding VectorizeBinding Vector : Type.
Variable embed : AiBinding -> jsstring -> World -> completion Vector * World.
Variable store_query :
  VectorizeBinding -> Vector -> nat -> World -> completion (list Candidate) * World.
Variable store_max : nat.
Variable count_of : value -> nat.
Variable extractRecentStickers : list value -> Z -> completion (list jsstring).

Local Abbreviation search :=
  (searchStickersWithScores_spec embed store_query store_max count_of).
Local Abbreviation handler := (handleRecommend extractRecentStickers search).

Lemma eqb_refl (s : jsstring) : eqb s s = true.
Proof. unfold eqb. destruct (list_eq_dec N.eq_dec s s); [reflexivity | contradiction]. Qed.

Lemma In_firstn {A : Type} (n : nat) (l : list A) (x : A) :
  In x (firstn n l) -> In x l.
Proof.
  revert l. induction n as [|n IH]; intros [|a l]; cbn; try tauto.
  intros [-> | Hin]; [left; reflexivity | right; apply IH; exact Hin].
Qed.

(** No result of the searcher of the specification bears an excluded
    identifier. *)
Lemma search_spec_excludes (ai : AiBinding) (vectorize : VectorizeBinding) (prompt : jsstring)
    (topK : value) (ids : list jsstring) (w : World) (results : list StickerResult) :
  fst (search ai vectorize prompt topK (Some ids) w) = Return results ->
  forall sticker, In sticker results -> ~ In (assetbundleName sticker) ids.
Proof.
  unfold searchStickersWithScores_spec.
  destruct (embed ai prompt w) as [[vector | e] w1]; [|discriminate].
  destruct (store_query vectorize vector _ w1) as [[candidates | e] w2]; [|discriminate].
  cbn [fst]. intros H. injection H as <-.
  intros sticker Hin Hex.
  apply in_map_iff in Hin. destruct Hin as (c & <- & Hc).
  apply In_firstn in Hc. apply filter_In in Hc. destruct Hc as [_ Hkeep].
  apply negb_true_iff in Hkeep. cbn in Hkeep, Hex.
  assert (Hsome : existsb (eqb (id c)) ids = true).
  { apply existsb_exists. exists (id c). split; [exact Hex | apply eqb_refl]. }
  congruence.
Qed.

Lemma parsed_functional (request : Request) (p p' : ParsedParams) :
  parsed request p -> parsed request p' -> p = p'.
Proof.
  intros [[Hm Hp] | [Hm (b & Hj & Hp)]] [[Hm' Hp'] | [Hm' (b' & Hj' & Hp')]];
    try (rewrite Hm in Hm'; discriminate); congruence.
Qed.

Lemma derived_exclusion_functional (params : ParsedParams) (ex ex' : option (list jsstring)) :
  derived_exclusion extractRecentStickers params ex ->
  derived_exclusion extractRecentStickers params ex' -> ex = ex'.
Proof.
  unfold derived_exclusion. destruct (excludeRecent params); try congruence.
  intros (ids & Hids & ->) (ids' & Hids' & ->). congruence.
Qed.

(** C7. With the searcher of the specification, whenever the handler
    derives an exclusion set from the request's [excludeRecent] (an array,
    handed to [extractRecentStickers]), no sticker of the response bears an
    [assetbundleName] of that set. *)
Theorem excluded_stickers_not_returned (request : Request)
    (env : Env AiBinding VectorizeBinding)
    (st : State World AiBinding VectorizeBinding (list jsstring))
    (response : Response) (params : ParsedParams) (ids : list jsstring) :
  fst (handler request env st) = Return response ->
  parsed request params ->
  derived_exclusion extractRecentStickers params (Some ids) ->
  forall sticker, In sticker (response_stickers response) ->
                  ~ In (assetbundleName sticker) ids.
Proof.
  intros Hrun Hparsed Hderived sticker Hin.
  destruct (handler_spec World AiBinding VectorizeBinding (list jsstring)
              extractRecentStickers search request env st)
    as (_ & _ & _ & Hresponse).
  specialize (Hresponse response Hrun).
  destruct response as [status headers body | code message status]; [|destruct Hin].
  destruct Hresponse as (vectorize & params' & ex & w & _ & Hparsed' & Hderived' & Hsearch & _).
  assert (params' = params) by (eapply parsed_functional; eassumption). subst params'.
  assert (ex = Some ids) by (eapply derived_exclusion_functional; eassumption). subst ex.
  exact (search_spec_excludes _ _ _ _ _ _ _ Hsearch sticker Hin).
Qed.

End Exclusion.

(** C7 at [?prompt=cake&excludeRecent=stickerA]: the response lists
    stickerB and stickerC, and stickerA is not among them. *)
Lemma excluded_stickers_not_returned_witness :
  let request :=
    Fixture.get_request [("prompt", "cake"); ("excludeRecent", "stickerA")]%string in
  exists response,
    fst (Fixture.handle request Fixture.env) = Return response
    /\ List.map assetbundleName (response_stickers response) = [lit "stickerB"; lit "stickerC"]
    /\ forall sticker, In sticker (response_stickers response) ->
                       ~ In (assetbundleName sticker) [lit "stickerA"].
Proof.
  cbv zeta. eexists. split; [reflexivity|]. split; [reflexivity|].
  apply (excluded_stickers_not_returned Fixture.World unit unit jsstring
           Fixture.embed Fixture.store_query 50%nat Fixture.count_of Fixture.extract
           (Fixture.get_request [("prompt", "cake"); ("excludeRecent", "stickerA")]%string)
           Fixture.env Fixture.start _
           {| prompt := lit "cake"; topK := JNumber (Finite 5);
              excludeRecent := JArray [JString (lit "stickerA")] |}
           [lit "stickerA"] eq_refl).
  - left. split; reflexivity.
  - exists [lit "stickerA"]. split; reflexivity.
Defined.

(** * Validation of a chat request *)
Section ChatRequest.

Lemma falsy_or_not_string (v : value) :
  negb (ToBoolean v) || negb (is_string v) = negb (non_empty_string v).
Proof.
  destruct v as [| |b|n|s|l|o]; cbn; rewrite ?orb_true_r; try reflexivity.
  destruct s; reflexivity.
Qed.

(** X1. [validateChatRequest] answers [{ valid: true }] exactly for the
    bodies whose [userId] is a non-empty string, whose [message] is a
    non-empty string of at most 2000 code units, and whose [history] is
    falsy or an array. *)
Theorem validateChatRequest_valid_iff (body : value) :
  validateChatRequest body = Return {| valid := true; error := None |}
  <-> chat_request_ok body.
Proof.
  unfold validateChatRequest, chat_request_ok, history_ok, JsValue.bind. split.
  - destruct (get body (lit "userId")) as [u|] eqn:Hu; [|discriminate].
    rewrite falsy_or_not_string.
    destruct (non_empty_string u) eqn:Hus; [|discriminate]. cbn [negb].
    destruct (get body (lit "message")) as [m|] eqn:Hm; [|discriminate].
    rewrite falsy_or_not_string.
    destruct (non_empty_string m) eqn:Hms; [|discriminate]. cbn [negb].
    destruct (Z.of_nat (List.length (string_value m)) >? 2000) eqn:Hlen; [discriminate|].
    destruct (get body (lit "history")) as [h|] eqn:Hh; [|discriminate].
    destruct (ToBoolean h && negb (is_array h)) eqn:Hhist; [discriminate|].
    intros _. exists u, m, h. repeat split; trivial.
    + rewrite Z.gtb_ltb in Hlen. apply Z.ltb_ge in Hlen. lia.
    + destruct (ToBoolean h), (is_array h); cbn in *; congruence.
  - intros (u & m & h & -> & -> & -> & Hus & Hms & Hlen & Hhist).
    rewrite !falsy_or_not_string, Hus, Hms. cbn [negb].
    replace (Z.of_nat (List.length (string_value m)) >? 2000) with false
      by (symmetry; rewrite Z.gtb_ltb; apply Z.ltb_ge; lia).
    destruct (ToBoolean h), (is_array h); cbn in *; congruence.
Qed.

(** X2. The error [validateChatRequest] reports is that of the first check
    that fails, in the order [userId], [message], length of [message],
    [history]: a bad [userId] hides every later fault. *)
Theorem validateChatRequest_first_error (body userId message history : value) :
  get body (lit "userId") = Return userId ->
  get body (lit "message") = Return message ->
  get body (lit "history") = Return history ->
  validateChatRequest body =
    Return
      (if negb (non_empty_string userId) then invalid "Missing or invalid userId"
       else if negb (non_empty_string message) then invalid "Missing or invalid message"
       else if (2000 <? List.length (string_value message))%nat
            then invalid "Message too long (max 2000 characters)"
       else if negb (history_ok history) then invalid "History must be an array"
       else {| valid := true; error := None |}).
Proof.
  intros Hu Hm Hh. unfold validateChatRequest, history_ok, JsValue.bind.
  rewrite Hu, Hm, Hh, !falsy_or_not_string.
  destruct (non_empty_string userId); cbn [negb]; [|reflexivity].
  destruct (non_empty_string message); cbn [negb]; [|reflexivity].
  replace (Z.of_nat (List.length (string_value message)) >? 2000)
    with (2000 <? List.length (string_value message))%nat.
  2:{ rewrite Z.gtb_ltb.
      destruct (Nat.ltb_spec 2000 (List.length (string_value message)));
        symmetry; [apply Z.ltb_lt | apply Z.ltb_ge]; lia. }
  destruct (2000 <? List.length (string_value message))%nat; [reflexivity|].
  destruct (ToBoolean history), (is_array history); reflexivity.
Qed.

(** X3. [validateChatRequest] throws (a TypeError) exactly on the bodies
    [null] and [undefined]; on every other value it returns a result. *)
Theorem validateChatRequest_throws_iff (body : value) (e : exn) :
  validateChatRequest body = Throw e
  <-> (body = JNull \/ body = JUndefined) /\ e = TypeError.
Proof.
  split.
  - intros H.
    destruct body as [| |b|n|s|l|o];
      try (split; [auto | cbn in H; congruence]); exfalso; revert H;
      unfold validateChatRequest, JsValue.bind; cbn [get];
      repeat match goal with
             | |- context [if ?c then _ else _] => destruct c
             end; discriminate.
  - intros [[-> | ->] ->]; reflexivity.
Qed.

End ChatRequest.

(** X2 at a body whose [userId] is missing and whose [message] is too
    long: the [userId] is reported. *)
Lemma validateChatRequest_first_error_witness :
  let body := JObject [(lit "message", JString (repeat 97%N 2001));
                       (lit "history", JNumber (Finite 1))] in
  validateChatRequest body = Return (invalid "Missing or invalid userId").
Proof.
  cbv zeta.
  exact (validateChatRequest_first_error
           (JObject [(lit "message", JString (repeat 97%N 2001));
                     (lit "history", JNumber (Finite 1))])
           JUndefined (JString (repeat 97%N 2001)) (JNumber (Finite 1))
           eq_refl eq_refl eq_refl).
Defined.

(** * What the parsers keep of a request *)
Section ParsedShape.

Lemma trimStart_spec (s : jsstring) :
  exists before,
    s = before ++ trimStart s
    /\ forallb is_white_space before = true
    /\ match trimStart s with
       | c :: _ => is_white_space c = false
       | [] => True
       end.
Proof.
  induction s as [|c r (before & Heq & Hws & Hhead)]; cbn.
  - exists []. repeat split.
  - destruct (is_white_space c) eqn:Hc.
    + exists (c :: before). cbn. rewrite Hc, Hws, <- Heq. repeat split. exact Hhead.
    + exists []. repeat split. exact Hc.
Qed.

Lemma forallb_rev {A : Type} (f : A -> bool) (l : list A) :
  forallb f (rev l) = forallb f l.
Proof.
  induction l as [|a l IH]; [reflexivity|].
  cbn. rewrite forallb_app, IH. cbn. rewrite andb_true_r. apply andb_comm.
Qed.

(** [trim] removes white space from both ends and nothing else. *)
Lemma trim_spec (s : jsstring) :
  stripped_of s (trim s) /\ no_outer_white_space (trim s).
Proof.
  unfold trim, trimEnd, stripped_of, no_outer_white_space.
  destruct (trimStart_spec s) as (before & Hs & Hbefore & Hhead).
  destruct (trimStart_spec (rev (trimStart s))) as (after & Hr & Hafter & Hlast).
  assert (Hu : trimStart s = rev (trimStart (rev (trimStart s))) ++ rev after).
  { rewrite <- rev_app_distr, <- Hr, rev_involutive. reflexivity. }
  split.
  - exists before, (rev after). rewrite <- Hu, forallb_rev. auto.
  - rewrite rev_involutive. split; [|exact Hlast].
    destruct (rev (trimStart (rev (trimStart s)))) as [|c t] eqn:Ht; [exact I|].
    rewrite Hu in Hhead. exact Hhead.
Qed.

Lemma trim_incl (s : jsstring) (c : N) : In c (trim s) -> In c s.
Proof.
  destruct (trim_spec s) as [(before & after & Hs & _) _].
  intros Hin. rewrite Hs. apply in_or_app. right. apply in_or_app. left. exact Hin.
Qed.

(** X4. The prompt either parser hands on is the [prompt] of the request
    (the query parameter, or the string in the body) without the white
    space at its two ends: it is not empty, and it neither starts nor ends
    with white space. *)
Theorem parsed_prompt_trimmed (request : Request) (params : ParsedParams) :
  parsed request params ->
  exists supplied,
    (method request = lit "GET"
       /\ searchParams_get (searchParams request) (lit "prompt") = Some supplied
     \/ method request = lit "POST"
        /\ exists body, json request = Some body
                        /\ get body (lit "prompt") = Return (JString supplied))
    /\ stripped_of supplied (prompt params)
    /\ no_outer_white_space (prompt params)
    /\ prompt params <> [].
Proof.
  intros [[Hm Hparse] | [Hm (body & Hjson & Hparse)]].
  - destruct (parseGet_inv request params Hparse) as (p & Hp & Hne & ->).
    exists p. destruct (trim_spec p) as [Hstrip Houter].
    split; [left; auto|]. split; [exact Hstrip|]. split; [exact Houter | exact Hne].
  - destruct (parsePost_inv body params Hparse) as (s & t & Hs & Hne & -> & _).
    exists s. destruct (trim_spec s) as [Hstrip Houter].
    split; [right; eauto|]. split; [exact Hstrip|]. split; [exact Houter | exact Hne].
Qed.

(** X5. Every element of the [excludeRecent] list the read form parses is
    a string that is not empty, neither starts nor ends with white space,
    and holds no comma. *)
Theorem parsed_excludeRecent_elements (request : Request) (params : ParsedParams)
    (elements : list value) :
  parseGetRequest request = inl params ->
  excludeRecent params = JArray elements ->
  Forall (fun element =>
            exists s, element = JString s
                      /\ s <> [] /\ no_outer_white_space s /\ ~ In comma s)
         elements.
Proof.
  unfold parseGetRequest.
  destruct (searchParams_get (searchParams request) (lit "prompt")) as [[|c p]|]; try discriminate.
  destruct (trim (c :: p)) as [|c' p']; try discriminate.
  intros H. injection H as <-. cbn [excludeRecent].
  destruct (searchParams_get (searchParams request) (lit "excludeRecent")) as [[|d e]|];
    try discriminate.
  intros H. injection H as <-.
  apply Forall_forall. intros element Hin.
  apply in_map_iff in Hin. destruct Hin as (s & <- & Hs).
  apply filter_In in Hs. destruct Hs as [Hs Hlen].
  apply in_map_iff in Hs. destruct Hs as (piece & <- & Hpiece).
  exists (trim piece). split; [reflexivity|]. split; [|split].
  - destruct (trim piece); [discriminate Hlen | discriminate].
  - apply trim_spec.
  - destruct (join_split (d :: e)) as [_ Hfree].
    rewrite Forall_forall in Hfree. intros Hc. apply (Hfree piece Hpiece).
    apply trim_incl. exact Hc.
Qed.

End ParsedShape.

(** X4 at [?prompt=  birthday cake ]. *)
Lemma parsed_prompt_trimmed_witness :
  let request := Fixture.get_request [("prompt", "  birthday cake ")]%string in
  exists params,
    parseGetRequest request = inl params
    /\ prompt params = lit "birthday cake"
    /\ no_outer_white_space (prompt params)
    /\ prompt params <> [].
Proof.
  cbv zeta. eexists. split; [reflexivity|]. split; [reflexivity|].
  destruct (parsed_prompt_trimmed
              (Fixture.get_request [("prompt", "  birthday cake ")]%string)
              {| prompt := lit "birthday cake"; topK := JNumber (Finite 5);
                 excludeRecent := JUndefined |}
              (or_introl (conj eq_refl eq_refl)))
    as (supplied & _ & _ & Houter & Hne).
  split; [exact Houter | exact Hne].
Defined.

(** X5 at [?prompt=cake&excludeRecent= a ,, b]. *)
Lemma parsed_excludeRecent_elements_witness :
  let request :=
    Fixture.get_request [("prompt", "cake"); ("excludeRecent", " a ,, b")]%string in
  Forall (fun element =>
            exists s, element = JString s
                      /\ s <> [] /\ no_outer_white_space s /\ ~ In comma s)
         [JString (lit "a"); JString (lit "b")].
Proof.
  cbv zeta.
  exact (parsed_excludeRecent_elements
           (Fixture.get_request [("prompt", "cake"); ("excludeRecent", " a ,, b")]%string)
           {| prompt := lit "cake"; topK := JNumber (Finite 5);
              excludeRecent := JArray [JString (lit "a"); JString (lit "b")] |}
           _ eq_refl eq_refl).
Defined.

(** * [topK] values that are kept *)
Section TopKKept.

Lemma parseInt10_decimal (k : Z) : 1 <= k <= 20 -> parseInt10 (decimal k) = Some k.
Proof.
  intros Hk.
  assert (H : k = 1 \/ k = 2 \/ k = 3 \/ k = 4 \/ k = 5 \/ k = 6 \/ k = 7 \/ k = 8 \/ k = 9
              \/ k = 10 \/ k = 11 \/ k = 12 \/ k = 13 \/ k = 14 \/ k = 15 \/ k = 16
              \/ k = 17 \/ k = 18 \/ k = 19 \/ k = 20) by lia.
  repeat (destruct H as [-> | H]; [reflexivity|]). subst k. reflexivity.
Qed.

Lemma decimal_truthy (k : Z) : 1 <= k <= 20 -> decimal k <> [].
Proof.
  intros Hk Hnil. pose proof (parseInt10_decimal k Hk) as H. rewrite Hnil in H. discriminate.
Qed.

(** X6. In the read form a [topK] parameter that [parseInt] reads as an
    integer in [1, 20] is used as that integer; in particular the decimal
    digits of every [k] from 1 to 20 give [topK] [k]. *)
Theorem get_topK_in_range_kept (request : Request) (params : ParsedParams) :
  parseGetRequest request = inl params ->
  (forall s k,
      searchParams_get (searchParams request) (lit "topK") = Some s ->
      parseInt10 s = Some k -> 1 <= k <= 20 ->
      topK params = JNumber (of_Z k))
  /\ (forall k,
         searchParams_get (searchParams request) (lit "topK") = Some (decimal k) ->
         1 <= k <= 20 ->
         topK params = JNumber (of_Z k)).
Proof.
  intros Hparse.
  assert (Hgen : forall s k,
             searchParams_get (searchParams request) (lit "topK") = Some s ->
             parseInt10 s = Some k -> 1 <= k <= 20 ->
             topK params = JNumber (of_Z k)).
  { revert Hparse. unfold parseGetRequest.
    destruct (searchParams_get (searchParams request) (lit "prompt")) as [[|c p]|];
      try discriminate.
    destruct (trim (c :: p)) as [|c' p']; try discriminate.
    intros H. injection H as <-. cbn [topK]. intros s k -> Hk Hrange.
    destruct s as [|d t]; [discriminate Hk|]. rewrite Hk.
    replace (k <? 1) with false by (symmetry; apply Z.ltb_ge; lia).
    replace (k >? 20) with false by (symmetry; rewrite Z.gtb_ltb; apply Z.ltb_ge; lia).
    reflexivity. }
  split; [exact Hgen|].
  intros k Hparam Hk. apply (Hgen (decimal k) k Hparam); [apply parseInt10_decimal|]; exact Hk.
Qed.

(** X7. In the write form a [topK] that is truthy and converts to a Number
    in (0, 20] is handed on as it is in the body, neither rounded nor
    converted. *)
Theorem post_topK_usable_kept (body body_topK : value) (params : ParsedParams) :
  parsePostBody body = Return (inl params) ->
  get body (lit "topK") = Return body_topK ->
  post_topK_usable body_topK ->
  topK params = body_topK.
Proof.
  intros Hparse Hget (Htruthy & n & Hn & Hgt & Hle).
  destruct (parsePost_inv body params Hparse)
    as (s & t & _ & _ & _ & Ht & _ & [[_ Hbad] | [Hsame _]]).
  - assert (t = body_topK) by congruence. subst t.
    destruct Hbad as [Hfalsy | (m & Hm & [Hngt | Hnle])]; congruence.
  - congruence.
Qed.

(** X8. Parsing the body of a POST request throws exactly when the body is
    [null] or [undefined] (reading [body.prompt] is a TypeError), or when
    the prompt is valid and the [topK] of the body is truthy and cannot be
    converted to a Number for the comparison with 0. *)
Theorem parsePostBody_throws_iff (body : value) (e : exn) :
  parsePostBody body = Throw e
  <-> ((body = JNull \/ body = JUndefined) /\ e = TypeError)
      \/ exists s body_topK,
           get body (lit "prompt") = Return (JString s)
           /\ trim s <> []
           /\ get body (lit "topK") = Return body_topK
           /\ ToBoolean body_topK = true
           /\ ToNumber body_topK = Throw e.
Proof.
  unfold parsePostBody, JsValue.bind, gt, le. split.
  - intros H.
    destruct (get body (lit "prompt")) as [bp|e0] eqn:Hp.
    2:{ left. destruct body; cbn in Hp; try discriminate; split; auto; congruence. }
    right.
    destruct bp as [| |b|n|s|l|o]; cbn [ToBoolean is_string negb orb] in H;
      try discriminate H; try (destruct (ToBoolean _); discriminate H);
      try (destruct b; discriminate H); try (destruct (negb _); discriminate H).
    cbn [string_value] in H.
    destruct s as [|c s]; [discriminate H|]. cbn [negb orb] in H.
    destruct (trim (c :: s)) as [|c' s'] eqn:Htrim; [discriminate H|].
    cbn [List.length] in H.
    replace (Z.of_nat (S (List.length s')) =? 0) with false in H
      by (symmetry; apply Z.eqb_neq; lia).
    destruct (get body (lit "topK")) as [t|] eqn:Ht.
    2:{ destruct body; cbn in Hp, Ht; discriminate. }
    exists (c :: s), t. rewrite Htrim.
    destruct (ToBoolean t) eqn:Hb.
    + destruct (ToNumber t) as [n|e1] eqn:Hn.
      * unfold JsValue.bind in H.
        destruct (gtb n (Finite 0)); [destruct (leb n (Finite 20))|];
          destruct (get body (lit "excludeRecent")) eqn:Hex;
          try discriminate H; destruct body; cbn in Hp, Hex; discriminate.
      * cbn in H. injection H as <-. repeat split; trivial. discriminate.
    + destruct (get body (lit "excludeRecent")) eqn:Hex;
        [discriminate H | destruct body; cbn in Hp, Hex; discriminate].
  - intros [[[-> | ->] ->] | (s & t & Hp & Hne & Ht & Hb & Hn)]; try reflexivity.
    rewrite Hp. cbn [ToBoolean is_string string_value negb orb].
    destruct s as [|c s]; [exfalso; apply Hne; reflexivity|]. cbn [negb orb].
    destruct (trim (c :: s)) as [|c' s'] eqn:Htrim; [contradiction|].
    cbn [List.length].
    replace (Z.of_nat (S (List.length s')) =? 0) with false
      by (symmetry; apply Z.eqb_neq; lia).
    rewrite Ht, Hb, Hn. reflexivity.
Qed.

End TopKKept.

(** X6 at [?prompt=cake&topK=20]. *)
Lemma get_topK_in_range_kept_witness :
  let request := Fixture.get_request [("prompt", "cake"); ("topK", "20")]%string in
  exists params,
    parseGetRequest request = inl params /\ topK params = JNumber (of_Z 20).
Proof.
  cbv zeta. eexists. split; [reflexivity|].
  destruct (get_topK_in_range_kept
              (Fixture.get_request [("prompt", "cake"); ("topK", "20")]%string) _ eq_refl)
    as [_ Hdecimal].
  apply (Hdecimal 20); [reflexivity | lia].
Defined.

(** X7 at a body whose [topK] is the text [20.000000000000001], which
    converts to the double 20. *)
Lemma post_topK_usable_kept_witness :
  let text := JString (lit "20.000000000000001") in
  let body := JObject [(lit "prompt", JString (lit "cake")); (lit "topK", text)] in
  exists params,
    parsePostBody body = Return (inl params)
    /\ post_topK_usable text
    /\ topK params = text.
Proof.
  cbv zeta.
  assert (Husable : post_topK_usable (JString (lit "20.000000000000001"))).
  { split; [reflexivity|]. exists (Finite 20).
    split; [vm_compute; reflexivity | split; reflexivity]. }
  assert (Hparse :
            parsePostBody (JObject [(lit "prompt", JString (lit "cake"));
                                    (lit "topK", JString (lit "20.000000000000001"))])
            = Return (inl {| prompt := lit "cake";
                             topK := JString (lit "20.000000000000001");
                             excludeRecent := JUndefined |})).
  { vm_compute. reflexivity. }
  eexists. split; [exact Hparse|]. split; [exact Husable|].
  exact (post_topK_usable_kept _ (JString (lit "20.000000000000001")) _
           Hparse eq_refl Husable).
Defined.

(** * Runs of the handler on a request that parses *)
Section ParsedRuns.

Variables World AiBinding VectorizeBinding Ids : Type.
Variable extractRecentStickers : list value -> Z -> completion Ids.
Variable searchStickersWithScores :
  AiBinding -> VectorizeBinding -> jsstring -> value -> option Ids ->
  World -> completion (list StickerResult) * World.

Local Abbreviation handler := (handleRecommend extractRecentStickers searchStickersWithScores).
Local Abbreviation HState := (State World AiBinding VectorizeBinding Ids).
Local Abbreviation HEnv := (Env AiBinding VectorizeBinding).

Lemma skipn_length_app {A : Type} (l x : list A) : skipn (List.length l) (l ++ x) = x.
Proof. rewrite skipn_app, skipn_all, Nat.sub_diag. reflexivity. Qed.

(** X9. On a request that parses, with the vector search configured and
    the exclusion set derived, the handler answers as the search does: the
    success response carries the results of the search as they are, in
    their order, with the trimmed prompt as [query]; a search that fails
    gives INTERNAL_ERROR with status 500 and its fixed message. Either way
    the search is called exactly once, and the world is left as the search
    left it. *)
Theorem handler_follows_search (request : Request) (env : HEnv)
    (vectorize : VectorizeBinding) (st : HState)
    (params : ParsedParams) (excludeIds : option Ids) :
  VECTORIZE env = Some vectorize ->
  parsed request params ->
  derived_exclusion extractRecentStickers params excludeIds ->
  let searched :=
    searchStickersWithScores (AI env) vectorize (prompt params) (topK params) excludeIds
      (world st) in
  fst (handler request env st)
    = Return match fst searched with
             | Return results => createSuccessResponse results (prompt params)
             | Throw _ => ErrorResponse "INTERNAL_ERROR" "An internal error occurred" 500
             end
  /\ world (snd (handler request env st)) = snd searched
  /\ filter is_search (new_events (handler request env) st)
       = [Search (AI env) vectorize (prompt params) (topK params) excludeIds].
Proof.
  intros Hv Hparsed Hderived searched. subst searched.
  unfold derived_exclusion in Hderived. unfold new_events.
  destruct Hparsed as [[Hm Hp] | [Hm (body & Hj & Hp)]]; run_handler; rewrite Hv, Hm.
  - replace (eqb (lit "GET") (lit "GET")) with true by reflexivity. rewrite Hp.
    destruct (excludeRecent params) as [| |b|n|s|l|o];
      try (subst excludeIds; cbn [world trace];
           destruct (searchStickersWithScores _ _ _ _ None (world st)) as [[results | e] w];
           cbn [fst snd world trace]; rewrite <- ?app_assoc, skipn_length_app;
           repeat split).
    destruct Hderived as (ids & Hids & ->). cbn [world trace]. rewrite Hids.
    cbn [world trace].
    destruct (searchStickersWithScores _ _ _ _ (Some ids) (world st)) as [[results | e] w];
      cbn [fst snd world trace]; rewrite <- ?app_assoc, skipn_length_app; repeat split.
  - replace (eqb (lit "POST") (lit "GET")) with false by reflexivity.
    replace (eqb (lit "POST") (lit "POST")) with true by reflexivity.
    rewrite Hj, Hp.
    destruct (excludeRecent params) as [| |b|n|s|l|o];
      try (subst excludeIds; cbn [world trace];
           destruct (searchStickersWithScores _ _ _ _ None (world st)) as [[results | e] w];
           cbn [fst snd world trace]; rewrite <- ?app_assoc, skipn_length_app;
           repeat split).
    destruct Hderived as (ids & Hids & ->). cbn [world trace]. rewrite Hids.
    cbn [world trace].
    destruct (searchStickersWithScores _ _ _ _ (Some ids) (world st)) as [[results | e] w];
      cbn [fst snd world trace]; rewrite <- ?app_assoc, skipn_length_app; repeat split.
Qed.

(** X10. When [extractRecentStickers] throws on the [excludeRecent] array
    of a request that parses, the handler answers INTERNAL_ERROR with
    status 500 and never calls the search: the world of the embedder and
    the vector store is untouched, and the error is logged. *)
Theorem extraction_failure_stops_before_search (request : Request) (env : HEnv)
    (vectorize : VectorizeBinding) (st : HState)
    (params : ParsedParams) (messages : list value) (e : exn) :
  VECTORIZE env = Some vectorize ->
  parsed request params ->
  excludeRecent params = JArray messages ->
  extractRecentStickers messages 10 = Throw e ->
  fst (handler request env st)
    = Return (ErrorResponse "INTERNAL_ERROR" "An internal error occurred" 500)
  /\ world (snd (handler request env st)) = world st
  /\ filter is_search (new_events (handler request env) st) = []
  /\ filter is_console_error (new_events (handler request env) st) = [ConsoleError e].
Proof.
  intros Hv Hparsed Harray Hthrow. unfold new_events.
  destruct Hparsed as [[Hm Hp] | [Hm (body & Hj & Hp)]]; run_handler; rewrite Hv, Hm.
  - replace (eqb (lit "GET") (lit "GET")) with true by reflexivity.
    rewrite Hp, Harray. cbn [world trace]. rewrite Hthrow.
    cbn [fst snd world trace]. rewrite <- ?app_assoc, skipn_length_app. repeat split.
  - replace (eqb (lit "POST") (lit "GET")) with false by reflexivity.
    replace (eqb (lit "POST") (lit "POST")) with true by reflexivity.
    rewrite Hj, Hp, Harray. cbn [world trace]. rewrite Hthrow.
    cbn [fst snd world trace]. rewrite <- ?app_assoc, skipn_length_app. repeat split.
Qed.

End ParsedRuns.

(** * Every run of the handler *)
Section AllRuns.

Variables World AiBinding VectorizeBinding Ids : Type.
Variable extractRecentStickers : list value -> Z -> completion Ids.
Variable searchStickersWithScores :
  AiBinding -> VectorizeBinding -> jsstring -> value -> option Ids ->
  World -> completion (list StickerResult) * World.

Local Abbreviation handler := (handleRecommend extractRecentStickers searchStickersWithScores).
Local Abbreviation HState := (State World AiBinding VectorizeBinding Ids).
Local Abbreviation HEnv := (Env AiBinding VectorizeBinding).

Lemma parseGet_error_form (request : Request) (response : Response) :
  parseGetRequest request = inr response ->
  response = createErrorResponse "INVALID_REQUEST" "prompt query parameter is required" None.
Proof.
  unfold parseGetRequest.
  destruct (searchParams_get (searchParams request) (lit "prompt")) as [[|c s]|];
    try (intros H; injection H as <-; reflexivity).
  destruct (trim (c :: s)); [intros H; injection H as <-; reflexivity | discriminate].
Qed.

Lemma parsePost_error_form (body : value) (response : Response) :
  parsePostBody body = Return (inr response) ->
  response = createErrorResponse "INVALID_REQUEST"
               "prompt is required and must be a non-empty string" None.
Proof.
  unfold parsePostBody, JsValue.bind.
  destruct (get body (lit "prompt")) as [bp|]; [|discriminate].
  destruct (_ || _ || _); [intros H; injection H as <-; reflexivity|].
  destruct (get body (lit "topK")) as [t|]; [|discriminate].
  destruct (if ToBoolean t then _ else _); [|discriminate].
  destruct (get body (lit "excludeRecent")); discriminate.
Qed.

(** Splits a run of the handler into its paths: each goal is about one
    path, with the response and the trace written out. *)
Ltac all_runs request env st :=
  unfold new_events; run_handler;
  destruct (VECTORIZE env) as [vectorize|] eqn:Hv;
  [ destruct (eqb (method request) (lit "GET")) eqn:Hget;
    [ destruct (parseGetRequest request) as [params | response] eqn:Hp;
      [ | apply parseGet_error_form in Hp; subst response ]
    | destruct (eqb (method request) (lit "POST")) eqn:Hpost;
      [ destruct (json request) as [body|] eqn:Hj;
        [ destruct (parsePostBody body) as [[params | response] | e] eqn:Hp;
          [ | apply parsePost_error_form in Hp; subst response | ]
        | ]
      | ] ]
  | ];
  try (match goal with
       | |- context [excludeRecent ?p] =>
           destruct (excludeRecent p) as [| |b|n|s|messages|o] eqn:Hex
       end;
       cbn [world trace];
       try (match goal with
            | |- context [extractRecentStickers ?m 10] =>
                destruct (extractRecentStickers m 10) as [ids | e] eqn:Hids
            end;
            cbn [world trace]);
       try match goal with
           | |- context [searchStickersWithScores ?a ?v ?p ?k ?x ?w] =>
               destruct (searchStickersWithScores a v p k x w) as [[results | e'] w']
                 eqn:Hsearch
           end);
  cbn [fst snd world trace];
  rewrite <- ?app_assoc, ?skipn_length_app, ?skipn_all.

(** X11. The handler never throws, and its response is always one of: the
    success response (status 200), VECTORIZE_UNAVAILABLE (503),
    METHOD_NOT_ALLOWED (405), INVALID_REQUEST or INVALID_JSON (no status
    passed to [createErrorResponse]), INTERNAL_ERROR (500), each with the
    message of the source. *)
Theorem handler_responses (request : Request) (env : HEnv) (st : HState) :
  exists response,
    fst (handler request env st) = Return response /\ handler_response response.
Proof.
  all_runs request env st; eexists; (split; [reflexivity|]); unfold handler_response;
    try (left; eexists _, _; reflexivity); auto 10.
Qed.


(** X13. The events of a run come in one order and each at most once: the
    reading of the body, one call of [extractRecentStickers], one call of
    [searchStickersWithScores], one logged error. The body is read only
    for the method POST, and [extractRecentStickers] is always asked for at
    most 10 identifiers. *)
Theorem handler_trace_in_order (request : Request) (env : HEnv) (st : HState) :
  in_order (new_events (handler request env) st) = true
  /\ forallb extracts_ten (new_events (handler request env) st) = true
  /\ (existsb is_read_json (new_events (handler request env) st) = true ->
      method request = lit "POST").
Proof.
  all_runs request env st; cbn; (split; [reflexivity|]); (split; [reflexivity|]);
    intros H; try discriminate H; apply eqb_eq; assumption.
Qed.

(** X17. A response of the handler that is not an error response has
    status 200, [success: true], and exactly the four headers of
    [createSuccessResponse]: JSON content type, any origin allowed, the
    methods GET, POST, OPTIONS, and the header Content-Type allowed. *)
Theorem success_response_shape (request : Request) (env : HEnv) (st : HState)
    (status : Z) (headers : list (string * string)) (body : RecommendResponse) :
  fst (handler request env st) = Return (JsonResponse status headers body) ->
  status = 200
  /\ success body = true
  /\ headers = [ ("Content-Type", "application/json");
                 ("Access-Control-Allow-Origin", "*");
                 ("Access-Control-Allow-Methods", "GET, POST, OPTIONS");
                 ("Access-Control-Allow-Headers", "Content-Type") ]%string.
Proof.
  revert status headers body.
  all_runs request env st; intros status headers answer H;
    try discriminate H; injection H as <- <- <-; repeat split.
Qed.

End AllRuns.

(** * What a run reads of the request *)
Section RequestParts.

Variables World AiBinding VectorizeBinding Ids : Type.
Variable extractRecentStickers : list value -> Z -> completion Ids.
Variable searchStickersWithScores :
  AiBinding -> VectorizeBinding -> jsstring -> value -> option Ids ->
  World -> completion (list StickerResult) * World.

Local Abbreviation handler := (handleRecommend extractRecentStickers searchStickersWithScores).
Local Abbreviation HState := (State World AiBinding VectorizeBinding Ids).
Local Abbreviation HEnv := (Env AiBinding VectorizeBinding).

(** X14. A GET request is answered from its query parameters alone,
    whatever its body; a POST request is answered from its body alone,
    whatever its query parameters. *)
Theorem handler_reads_one_part (request request' : Request) (env : HEnv) (st : HState) :
  (method request = lit "GET" -> method request' = lit "GET" ->
   searchParams request = searchParams request' ->
   handler request env st = handler request' env st)
  /\ (method request = lit "POST" -> method request' = lit "POST" ->
      json request = json request' ->
      handler request env st = handler request' env st).
Proof.
  split; intros Hm Hm' Hsame; unfold handleRecommend, parsePostRequest;
    rewrite Hm, Hm'.
  - replace (parseGetRequest request') with (parseGetRequest request);
      [reflexivity | unfold parseGetRequest; rewrite Hsame; reflexivity].
  - rewrite Hsame. reflexivity.
Qed.

(** X15. On a request that parses, [extractRecentStickers] is called
    exactly when the parsed [excludeRecent] is an array, once, with that
    array as it is and the count 10. *)
Theorem extraction_called_on_arrays (request : Request) (env : HEnv)
    (vectorize : VectorizeBinding) (st : HState) (params : ParsedParams) :
  VECTORIZE env = Some vectorize ->
  parsed request params ->
  filter is_extract (new_events (handler request env) st)
  = match excludeRecent params with
    | JArray messages => [Extract messages 10]
    | _ => []
    end.
Proof.
  intros Hv Hparsed. unfold new_events.
  destruct Hparsed as [[Hm Hp] | [Hm (body & Hj & Hp)]]; run_handler; rewrite Hv, Hm.
  - replace (eqb (lit "GET") (lit "GET")) with true by reflexivity. rewrite Hp.
    destruct (excludeRecent params) as [| |b|n|s|messages|o]; cbn [world trace];
      try (destruct (extractRecentStickers messages 10) as [ids | e]; cbn [world trace]);
      try match goal with
          | |- context [searchStickersWithScores ?a ?v ?p ?k ?x ?w] =>
              destruct (searchStickersWithScores a v p k x w) as [[results | e'] w']
          end;
      cbn [fst snd world trace]; rewrite <- ?app_assoc, skipn_length_app; reflexivity.
  - replace (eqb (lit "POST") (lit "GET")) with false by reflexivity.
    replace (eqb (lit "POST") (lit "POST")) with true by reflexivity.
    rewrite Hj, Hp.
    destruct (excludeRecent params) as [| |b|n|s|messages|o]; cbn [world trace];
      try (destruct (extractRecentStickers messages 10) as [ids | e]; cbn [world trace]);
      try match goal with
          | |- context [searchStickersWithScores ?a ?v ?p ?k ?x ?w] =>
              destruct (searchStickersWithScores a v p k x w) as [[results | e'] w']
          end;
      cbn [fst snd world trace]; rewrite <- ?app_assoc, skipn_length_app; reflexivity.
Qed.

(** X16. A POST request whose body is not JSON gets INVALID_JSON (no
    status passed to [createErrorResponse]) once the body has been read;
    nothing is extracted or searched and the world is untouched. *)
Theorem invalid_json_rejected (request : Request) (env : HEnv)
    (vectorize : VectorizeBinding) (st : HState) :
  VECTORIZE env = Some vectorize ->
  method request = lit "POST" ->
  json request = None ->
  handler request env st
  = (Return (createErrorResponse "INVALID_JSON" "Invalid JSON in request body" None),
     {| world := world st; trace := trace st ++ [ReadJson] |}).
Proof.
  intros Hv Hm Hj. run_handler. rewrite Hv, Hm, Hj. reflexivity.
Qed.

End RequestParts.

(** X9 at [?prompt=cake&excludeRecent=stickerA]. *)
Lemma handler_follows_search_witness :
  let request :=
    Fixture.get_request [("prompt", "cake"); ("excludeRecent", "stickerA")]%string in
  let run := handleRecommend Fixture.extract Fixture.search request Fixture.env in
  fst (run Fixture.start)
    = Return (createSuccessResponse
                [{| assetbundleName := lit "stickerB"; name := lit "cake";
                    score := Finite (8 # 10) |};
                 {| assetbundleName := lit "stickerC"; name := lit "sleepy";
                    score := Finite (7 # 10) |}]
                (lit "cake"))
  /\ world (snd (run Fixture.start)) = 2%nat
  /\ filter is_search (new_events run Fixture.start)
       = [Search tt tt (lit "cake") (JNumber (Finite 5)) (Some [lit "stickerA"])].
Proof.
  cbv zeta.
  exact (handler_follows_search Fixture.World unit unit (list jsstring)
           Fixture.extract Fixture.search
           (Fixture.get_request [("prompt", "cake"); ("excludeRecent", "stickerA")]%string)
           Fixture.env tt Fixture.start
           {| prompt := lit "cake"; topK := JNumber (Finite 5);
              excludeRecent := JArray [JString (lit "stickerA")] |}
           (Some [lit "stickerA"])
           eq_refl (or_introl (conj eq_refl eq_refl))
           (ex_intro _ [lit "stickerA"] (conj eq_refl eq_refl))).
Defined.

(** X10 at a body whose [excludeRecent] is the array [[1]], with an
    extractor that throws on a message that is not a string. *)
Lemma extraction_failure_stops_before_search_witness :
  let body := JObject [(lit "prompt", JString (lit "cake"));
                       (lit "excludeRecent", JArray [JNumber (Finite 1)])] in
  let run := handleRecommend strict_extract Fixture.search
               (Fixture.post_request body) Fixture.env in
  fst (run Fixture.start)
    = Return (ErrorResponse "INTERNAL_ERROR" "An internal error occurred" 500)
  /\ world (snd (run Fixture.start)) = O
  /\ filter is_search (new_events run Fixture.start) = []
  /\ filter is_console_error (new_events run Fixture.start) = [ConsoleError TypeError].
Proof.
  cbv zeta.
  exact (extraction_failure_stops_before_search Fixture.World unit unit (list jsstring)
           strict_extract Fixture.search
           (Fixture.post_request
              (JObject [(lit "prompt", JString (lit "cake"));
                        (lit "excludeRecent", JArray [JNumber (Finite 1)])]))
           Fixture.env tt Fixture.start
           {| prompt := lit "cake"; topK := JNumber (Finite 5);
              excludeRecent := JArray [JNumber (Finite 1)] |}
           [JNumber (Finite 1)] TypeError
           eq_refl
           (or_intror (conj eq_refl (ex_intro _ _ (conj eq_refl eq_refl))))
           eq_refl eq_refl).
Defined.

(** X14 at two GET requests with the same query and different bodies. *)
Lemma handler_reads_one_part_witness :
  let request := Fixture.get_request [("prompt", "cake")]%string in
  let request' := {| method := lit "GET";
                     searchParams := searchParams request;
                     json := Some (JObject [(lit "prompt", JString (lit "tea"))]) |} in
  handleRecommend Fixture.extract Fixture.search request Fixture.env Fixture.start
  = handleRecommend Fixture.extract Fixture.search request' Fixture.env Fixture.start.
Proof.
  cbv zeta.
  apply (proj1 (handler_reads_one_part Fixture.World unit unit (list jsstring)
                  Fixture.extract Fixture.search
                  (Fixture.get_request [("prompt", "cake")]%string) _
                  Fixture.env Fixture.start));
    reflexivity.
Defined.

(** X15 at a body whose [excludeRecent] is an array of two messages, one
    of them blank. *)
Lemma extraction_called_on_arrays_witness :
  let messages := [JString (lit "stickerA"); JString (lit " ")] in
  let body := JObject [(lit "prompt", JString (lit "cake"));
                       (lit "excludeRecent", JArray messages)] in
  filter is_extract
    (new_events (handleRecommend Fixture.extract Fixture.search
                   (Fixture.post_request body) Fixture.env) Fixture.start)
  = [Extract messages 10].
Proof.
  cbv zeta.
  exact (extraction_called_on_arrays Fixture.World unit unit (list jsstring)
           Fixture.extract Fixture.search
           (Fixture.post_request
              (JObject [(lit "prompt", JString (lit "cake"));
                        (lit "excludeRecent",
                         JArray [JString (lit "stickerA"); JString (lit " ")])]))
           Fixture.env tt Fixture.start
           {| prompt := lit "cake"; topK := JNumber (Finite 5);
              excludeRecent := JArray [JString (lit "stickerA"); JString (lit " ")] |}
           eq_refl
           (or_intror (conj eq_refl (ex_intro _ _ (conj eq_refl eq_refl))))).
Defined.

(** X16 at a POST request whose body is not JSON. *)
Lemma invalid_json_rejected_witness :
  Fixture.handle {| method := lit "POST"; searchParams := []; json := None |} Fixture.env
  = (Return (createErrorResponse "INVALID_JSON" "Invalid JSON in request body" None),
     {| world := O; trace := [ReadJson] |}).
Proof.
  exact (invalid_json_rejected Fixture.World unit unit (list jsstring)
           Fixture.extract Fixture.search
           {| method := lit "POST"; searchParams := []; json := None |}
           Fixture.env tt Fixture.start eq_refl eq_refl eq_refl).
Defined.

(** * Bodies that cannot be parsed *)
Section ParseFailure.

Variables World AiBinding VectorizeBinding Ids : Type.
Variable extractRecentStickers : list value -> Z -> completion Ids.
Variable searchStickersWithScores :
  AiBinding -> VectorizeBinding -> jsstring -> value -> option Ids ->
  World -> completion (list StickerResult) * World.

Local Abbreviation handler := (handleRecommend extractRecentStickers searchStickersWithScores).
Local Abbreviation HState := (State World AiBinding VectorizeBinding Ids).
Local Abbreviation HEnv := (Env AiBinding VectorizeBinding).

(** X18. When parsing the body of a POST request throws, the handler
    answers INTERNAL_ERROR with status 500, not INVALID_REQUEST: the body
    has been read, the error is logged, and nothing is extracted or
    searched. *)
Theorem post_parse_failure_is_internal_error (request : Request) (env : HEnv)
    (vectorize : VectorizeBinding) (st : HState) (body : value) (e : exn) :
  VECTORIZE env = Some vectorize ->
  method request = lit "POST" ->
  json request = Some body ->
  parsePostBody body = Throw e ->
  handler request env st
  = (Return (ErrorResponse "INTERNAL_ERROR" "An internal error occurred" 500),
     {| world := world st; trace := (trace st ++ [ReadJson]) ++ [ConsoleError e] |}).
Proof.
  intros Hv Hm Hj Hp. run_handler. rewrite Hv, Hm, Hj, Hp. reflexivity.
Qed.

End ParseFailure.

(** X17 at [?prompt=cake]. *)
Lemma success_response_shape_witness :
  exists status headers body,
    fst (Fixture.handle (Fixture.get_request [("prompt", "cake")]%string) Fixture.env)
      = Return (JsonResponse status headers body)
    /\ status = 200 /\ success body = true
    /\ In ("Access-Control-Allow-Origin", "*")%string headers.
Proof.
  eexists _, _, _. split; [reflexivity|].
  destruct (success_response_shape Fixture.World unit unit (list jsstring)
              Fixture.extract Fixture.search
              (Fixture.get_request [("prompt", "cake")]%string) Fixture.env Fixture.start
              _ _ _ eq_refl) as (Hstatus & Hsuccess & Hheaders).
  split; [exact Hstatus|]. split; [exact Hsuccess|].
  right. left. reflexivity.
Defined.

(** X18 at a body whose [topK] is an object with an own property
    [toString]: the comparison [body.topK > 0] throws a TypeError. *)
Lemma post_parse_failure_is_internal_error_witness :
  let body := JObject [(lit "prompt", JString (lit "cake"));
                       (lit "topK", JObject [(lit "toString", JNumber (Finite 1))])] in
  Fixture.handle (Fixture.post_request body) Fixture.env
  = (Return (ErrorResponse "INTERNAL_ERROR" "An internal error occurred" 500),
     {| world := O; trace := [ReadJson; ConsoleError TypeError] |}).
Proof.
  cbv zeta.
  exact (post_parse_failure_is_internal_error Fixture.World unit unit (list jsstring)
           Fixture.extract Fixture.search
           (Fixture.post_request
              (JObject [(lit "prompt", JString (lit "cake"));
                        (lit "topK", JObject [(lit "toString", JNumber (Finite 1))])]))
           Fixture.env tt Fixture.start _ TypeError
           eq_refl eq_refl eq_refl eq_refl).
Defined.
